(** * Player API of [app.js]: a shallow embedding and its verified properties

    [app.js] is an Express application over one Sequelize model, [Player],
    with express-session for identity.  The file holds two revisions of the
    program; the embedding follows the later one (the revision with the
    session middleware, [isAuthenticated] and the profile routes).

    What is modelled, and how:
    - the [players] table is a list of rows in insertion order together with
      the value of the [id] sequence;
    - the session store is a finite map from session identifiers (the value
      carried by the cookie) to the [user] object of the session;
    - a request carries its cookie, its route, its JSON body and the salt
      that [bcrypt.hash] draws while the request is served;
    - a handler is a function from the state before the request to the state
      after it and the response ([res.status(..).json(..)]);
    - an awaited promise either resolves or rejects; the [catch] block of a
      handler turns a rejection into its 500 response.

    Request bodies are well typed: a field is absent ([undefined], [None])
    or holds a value of the JSON type of its column (a string, an integer).
    The table is the one that [sequelize.sync()] creates from the model: its
    columns are the attributes of the model, a value written to an INTEGER
    column must be a 32-bit integer and a string written to a STRING(n)
    column must have at most [n] characters; a statement that PostgreSQL
    refuses rejects the promise of the call.  The loss of the database
    connection is not modelled.  [bcrypt], [JSON.stringify], the [isEmail]
    validator and the order in which PostgreSQL scans the table are
    parameters of the development. *)

From Stdlib Require Import ZArith Ascii String List Bool Lia Permutation.
From stdpp Require Import base option list gmap strings.
Import ListNotations.

Local Open Scope Z_scope.
Local Open Scope string_scope.

(** ** JSON values *)

#[local] Set Warnings "-register-all".

Inductive json : Type :=
| JNull
| JBool (b : bool)
| JNum (n : Z)
| JStr (s : string)
| JArr (items : list json)
| JObj (members : list (string * json)).

(** [has_key k j]: some object inside [j], at any depth, has a member
    named [k]. *)
Fixpoint has_key (k : string) (j : json) : bool :=
  match j with
  | JArr items => existsb (has_key k) items
  | JObj members =>
      existsb (fun m => let '(name, v) := m in String.eqb name k || has_key k v)
              members
  | _ => false
  end.

(** The member [k] of an object ([undefined] is [None]). *)
Fixpoint member (k : string) (members : list (string * json)) : option json :=
  match members with
  | [] => None
  | (name, v) :: rest => if String.eqb name k then Some v else member k rest
  end.

Definition json_of_string (o : option string) : json :=
  match o with Some s => JStr s | None => JNull end.

(** ** JavaScript truthiness on the values of a body *)

(** [!v] is false exactly when [v] is a non-empty string. *)
Definition nonempty (v : option string) : option string :=
  match v with
  | Some s => if String.eqb s "" then None else Some s
  | None => None
  end.

(** [v || d] where [d] may be [null]. *)
Definition js_or (v : option string) (d : option string) : option string :=
  match nonempty v with Some s => Some s | None => d end.

(** [v || d] where [d] is a string. *)
Definition js_or_s (v : option string) (d : string) : string :=
  match nonempty v with Some s => s | None => d end.

(** [v || 0] on a number. *)
Definition js_or_zero (v : option Z) : Z :=
  match v with
  | Some n => if Z.eqb n 0 then 0 else n
  | None => 0
  end.

(** ** The [players] table *)

Module Player.

(** The columns of [sequelize.define("players", ...)]. *)
Record t : Type := mk {
  id : Z;
  username : string;
  email : option string;
  display_name : option string;
  theme : string;
  avatar : option string;
  points : Z;
  coins : Z;
  networking_completed : bool;
  programming_completed : bool;
  systemunit_completed : bool;
  networking_hard_perfect : bool;
  programming_game_unlocked : bool;
  progress : option string;
  password : string
}.

Definition set_email (v : option string) (p : t) : t :=
  mk (id p) (username p) v (display_name p) (theme p) (avatar p) (points p)
     (coins p) (networking_completed p) (programming_completed p)
     (systemunit_completed p) (networking_hard_perfect p)
     (programming_game_unlocked p) (progress p) (password p).

Definition set_display_name (v : option string) (p : t) : t :=
  mk (id p) (username p) (email p) v (theme p) (avatar p) (points p)
     (coins p) (networking_completed p) (programming_completed p)
     (systemunit_completed p) (networking_hard_perfect p)
     (programming_game_unlocked p) (progress p) (password p).

Definition set_theme (v : string) (p : t) : t :=
  mk (id p) (username p) (email p) (display_name p) v (avatar p) (points p)
     (coins p) (networking_completed p) (programming_completed p)
     (systemunit_completed p) (networking_hard_perfect p)
     (programming_game_unlocked p) (progress p) (password p).

Definition set_avatar (v : option string) (p : t) : t :=
  mk (id p) (username p) (email p) (display_name p) (theme p) v (points p)
     (coins p) (networking_completed p) (programming_completed p)
     (systemunit_completed p) (networking_hard_perfect p)
     (programming_game_unlocked p) (progress p) (password p).

Definition set_points (v : Z) (p : t) : t :=
  mk (id p) (username p) (email p) (display_name p) (theme p) (avatar p) v
     (coins p) (networking_completed p) (programming_completed p)
     (systemunit_completed p) (networking_hard_perfect p)
     (programming_game_unlocked p) (progress p) (password p).

Definition set_coins (v : Z) (p : t) : t :=
  mk (id p) (username p) (email p) (display_name p) (theme p) (avatar p)
     (points p) v (networking_completed p) (programming_completed p)
     (systemunit_completed p) (networking_hard_perfect p)
     (programming_game_unlocked p) (progress p) (password p).

Definition set_password (v : string) (p : t) : t :=
  mk (id p) (username p) (email p) (display_name p) (theme p) (avatar p)
     (points p) (coins p) (networking_completed p) (programming_completed p)
     (systemunit_completed p) (networking_hard_perfect p)
     (programming_game_unlocked p) (progress p) v.

(** The attributes of the model, in the order of its definition, as
    [toJSON] lists them. *)
Definition dataValues (p : t) : list (string * json) :=
  [ ("id", JNum (id p));
    ("username", JStr (username p));
    ("email", json_of_string (email p));
    ("display_name", json_of_string (display_name p));
    ("theme", JStr (theme p));
    ("avatar", json_of_string (avatar p));
    ("points", JNum (points p));
    ("coins", JNum (coins p));
    ("networking_completed", JBool (networking_completed p));
    ("programming_completed", JBool (programming_completed p));
    ("systemunit_completed", JBool (systemunit_completed p));
    ("networking_hard_perfect", JBool (networking_hard_perfect p));
    ("programming_game_unlocked", JBool (programming_game_unlocked p));
    ("progress", json_of_string (progress p));
    ("password", JStr (password p)) ].

(** [res.json(player)] for an instance read with every attribute. *)
Definition toJSON (p : t) : json := JObj (dataValues p).

(** [res.json(player)] for an instance read with [attributes: attrs]. *)
Definition toJSON_attributes (attrs : list string) (p : t) : json :=
  JObj (List.filter (fun m => existsb (String.eqb (fst m)) attrs) (dataValues p)).

End Player.

(** The [user] object that [/login] stores in the session. *)
Module User.
Record t : Type := mk { id : Z; username : string }.
End User.

(** The fields that the handlers read from [req.body]. *)
Module Body.
Record t : Type := mk {
  username : option string;
  password : option string;
  email : option string;
  displayName : option string;
  theme : option string;
  avatar : option string;
  currentPassword : option string;
  newPassword : option string;
  points : option Z;
  coins : option Z;
  unlockedLevels : option json
}.

Definition empty : t :=
  mk None None None None None None None None None None None.
End Body.

(** ** Requests, responses, server state *)

Inductive endpoint : Type :=
| POST_create_player
| GET_get_players
| GET_get_posts
| GET_players
| POST_login
| GET_api_current_user
| GET_api_player (username : string)
| POST_api_update_profile
| POST_api_upload_avatar
| POST_api_change_password
| POST_api_delete_account
| POST_api_logout_others
| POST_api_reward
| POST_update_coins
| POST_update_progress.

Record request : Type := mkRequest {
  cookie : option nat;
  route : endpoint;
  body : Body.t;
  salt : string
}.

(** [set_cookie] is the session identifier that the response announces when
    a session has been created for the request. *)
Record response : Type := mkResponse {
  status : Z;
  payload : json;
  set_cookie : option nat
}.

Definition respond (code : Z) (j : json) : response := mkResponse code j None.

Record state : Type := mkState {
  players : list Player.t;
  players_id_seq : Z;
  sessions : gmap nat User.t;
  next_sid : nat
}.

Definition init : state := mkState [] 1 ∅ 0%nat.

Definition set_players (rows : list Player.t) (st : state) : state :=
  mkState rows (players_id_seq st) (sessions st) (next_sid st).

(** An awaited promise. *)
Inductive outcome (A : Type) : Type :=
| Resolved (a : A)
| Rejected.
Arguments Resolved {A} a.
Arguments Rejected {A}.

Definition error (msg : string) : json := JObj [("error", JStr msg)].

(** ** The types of the columns *)

(** [DataTypes.INTEGER] is the [integer] of PostgreSQL: 32 bits, signed.  A
    statement that writes another number is refused. *)
Definition int4 (v : Z) : bool :=
  Z.leb (-2147483648) v && Z.leb v 2147483647.

(** [DataTypes.STRING(n)] is [character varying(n)]: a statement that writes
    a string of more than [n] characters is refused.  The one exception of
    PostgreSQL, a longer string whose excess is blanks only, which it cuts
    to the width, is not modelled: the theorems that state a write are for
    strings within the width. *)
Definition varchar (n : nat) (s : string) : bool :=
  Nat.leb (String.length s) n.

(** The same for a column that may be [null]. *)
Definition varchar_null (n : nat) (o : option string) : bool :=
  match o with
  | Some s => varchar n s
  | None => true
  end.

(** ** Sequelize on the table *)

(** [UPDATE players SET ... WHERE ...]: every row that satisfies [cond] is
    rewritten by [assign].  The list keeps the rows in the order of their
    insertion; the order in which a query without ORDER BY returns them is
    another matter, see [scan_order] below. *)
Definition update_where (cond : Player.t -> bool) (assign : Player.t -> Player.t)
    (rows : list Player.t) : list Player.t :=
  map (fun r => if cond r then assign r else r) rows.

Definition has_username (u : string) (r : Player.t) : bool :=
  String.eqb (Player.username r) u.

Definition has_id (i : Z) (r : Player.t) : bool :=
  Z.eqb (Player.id r) i.

(** [Player.findOne({ where: { username } })].  Sequelize rejects a [where]
    whose value is [undefined]. *)
Definition Player_findOne_username (username : option string)
    (rows : list Player.t) : outcome (option Player.t) :=
  match username with
  | Some u => Resolved (find (has_username u) rows)
  | None => Rejected
  end.

(** [Player.findOne({ where: { id } })]. *)
Definition Player_findOne_id (i : Z) (rows : list Player.t) : option Player.t :=
  find (has_id i) rows.

(** [player.save()] after the assignments to [points] and [coins]: the two
    columns of the row with the primary key of the instance are written,
    unless one of the two numbers is not an INTEGER. *)
Definition Player_save (player : Player.t) (rows : list Player.t)
    : outcome (list Player.t) :=
  if int4 (Player.points player) && int4 (Player.coins player) then
    Resolved
      (update_where (has_id (Player.id player))
         (fun r => Player.set_coins (Player.coins player)
                     (Player.set_points (Player.points player) r))
         rows)
  else Rejected.

(** [player.destroy()]: [DELETE FROM players WHERE id = ...]. *)
Definition Player_destroy (player : Player.t) (rows : list Player.t) : list Player.t :=
  List.filter (fun r => negb (has_id (Player.id player) r)) rows.

(** [sequelize.query("UPDATE players SET coins = :coins WHERE username =
    :username", { replacements })].  A replacement whose value is
    [undefined] makes the call throw before any statement is sent; a number
    that is not an INTEGER makes PostgreSQL refuse the statement, whether or
    not a row has the username. *)
Definition query_update_coins (coins : option Z) (username : string)
    (rows : list Player.t) : outcome (list Player.t) :=
  match coins with
  | Some c =>
      if int4 c then
        Resolved (update_where (has_username username) (Player.set_coins c) rows)
      else Rejected
  | None => Rejected
  end.

(** [sequelize.query("UPDATE players SET coins = :coins, unlocked_levels =
    :unlockedLevels WHERE username = :username", { replacements })].  The
    model declares no [unlocked_levels] attribute, so the table has no such
    column: PostgreSQL refuses the statement for every value of its
    replacements (and Sequelize throws before that when one of them is
    [undefined]). *)
Definition query_update_progress (coins : option Z) (unlockedLevels : option string)
    (username : string) (rows : list Player.t) : outcome (list Player.t) :=
  Rejected.

(** ** express-session *)

(** [req.session.user]: the session named by the cookie, when the store
    holds it; a request without a cookie, or with the cookie of a session
    that the store does not hold, gets a fresh session without [user]. *)
Definition req_session_user (st : state) (c : option nat) : option User.t :=
  match c with
  | Some sid => sessions st !! sid
  | None => None
  end.

(** The end of a request that assigned [req.session.user]: the session is
    written to the store, under the identifier of the cookie when the store
    holds that session, under a new identifier otherwise
    ([saveUninitialized: false]: only such sessions are ever stored). *)
Definition session_save (c : option nat) (u : User.t) (st : state)
    : state * option nat :=
  let fresh :=
    (mkState (players st) (players_id_seq st)
             (<[next_sid st := u]> (sessions st)) (S (next_sid st)),
     Some (next_sid st)) in
  match c with
  | Some sid =>
      match sessions st !! sid with
      | Some _ =>
          (mkState (players st) (players_id_seq st)
                   (<[sid := u]> (sessions st)) (next_sid st), None)
      | None => fresh
      end
  | None => fresh
  end.

(** [req.session.destroy()]. *)
Definition session_destroy (c : option nat) (st : state) : state :=
  match c with
  | Some sid =>
      mkState (players st) (players_id_seq st) (delete sid (sessions st))
              (next_sid st)
  | None => st
  end.

(** The middleware [isAuthenticated]: [next] is the rest of the route. *)
Definition isAuthenticated (req : request) (st : state)
    (next : User.t -> state * response) : state * response :=
  match req_session_user st (cookie req) with
  | Some u => next u
  | None => (st, respond 401 (error "Not authenticated"))
  end.

(** [try { x = await p; k x } catch { failed }]. *)
Definition await {A : Type} (p : outcome A) (failed : state * response)
    (k : A -> state * response) : state * response :=
  match p with
  | Resolved a => k a
  | Rejected => failed
  end.

(** ** The libraries behind the routes *)

Class Libraries : Type := {
  (** [bcryptjs]: the hash of a password under a salt, and the check of a
      password against a hash. *)
  hash_with_salt : string -> string -> string;
  verify : string -> string -> bool;
  (** [JSON.stringify] on a value that is not [undefined]. *)
  JSON_stringify : json -> string;
  (** The validator behind [validate: { isEmail: true }]. *)
  isEmail : string -> bool;
  (** The order in which PostgreSQL returns the rows of a query without
      ORDER BY: every row once, in an order of its own (a row that was
      updated may come after the others). *)
  scan_order : list Player.t -> list Player.t;
  scan_order_all : forall rows, Permutation (scan_order rows) rows
}.

(** ** The routes *)

Section Routes.

Context `{Libraries}.

(** [bcrypt.hash(s, 10)] and [bcrypt.compare(s, hash)] reject an argument
    that is not a string. *)
Definition bcrypt_hash (s : option string) (salt : string) : outcome string :=
  match s with
  | Some plain => Resolved (hash_with_salt salt plain)
  | None => Rejected
  end.

Definition bcrypt_compare (s : option string) (hashed : string) : outcome bool :=
  match s with
  | Some plain => Resolved (verify plain hashed)
  | None => Rejected
  end.

(** The validation of the [email] attribute: [null] is allowed and is not
    passed to the validator. *)
Definition validate_email (email : option string) : bool :=
  match email with
  | Some e => isEmail e
  | None => true
  end.

(** [Player.create({ username, password, email })].  The attributes are
    validated first; the INSERT then draws the next [id] (the value drawn is
    not given back) and fails when the username is wider than STRING(100),
    when the email is wider than STRING(255), or on the unique index of
    [username].  The [password] is a bcrypt hash: 60 characters, within its
    STRING(100). *)
Definition Player_create (username password : string) (email : option string)
    (st : state) : state * outcome Player.t :=
  if validate_email email then
    let st1 := mkState (players st) (players_id_seq st + 1) (sessions st)
                       (next_sid st) in
    if negb (varchar 100 username && varchar_null 255 email) then (st1, Rejected)
    else if existsb (has_username username) (players st) then (st1, Rejected)
    else
      let player :=
        Player.mk (players_id_seq st) username email None "system" None 0 0
                  false false false false false None password in
      (set_players (players st ++ [player]) st1, Resolved player)
  else (st, Rejected).

(** [Player.findAll()]: the rows in the order of the scan. *)
Definition Player_findAll (rows : list Player.t) : list Player.t :=
  scan_order rows.

(** [player.update({ email, display_name, theme, avatar })]: the email is
    validated, and the UPDATE is refused when the email is wider than
    STRING(255), the display name than STRING(100) or the theme than
    STRING(20); the avatar is a TEXT. *)
Definition Player_update_profile (player : Player.t)
    (email display_name : option string) (theme : string)
    (avatar : option string) (rows : list Player.t) : outcome (list Player.t) :=
  if validate_email email
     && varchar_null 255 email && varchar_null 100 display_name && varchar 20 theme
  then
    Resolved
      (update_where (has_id (Player.id player))
         (fun r => Player.set_avatar avatar
                     (Player.set_theme theme
                        (Player.set_display_name display_name
                           (Player.set_email email r))))
         rows)
  else Rejected.

(** [player.update({ avatar })]: a value that is [undefined] is left out
    of the update. *)
Definition Player_update_avatar (player : Player.t) (avatar : option string)
    (rows : list Player.t) : list Player.t :=
  match avatar with
  | Some a => update_where (has_id (Player.id player))
                (Player.set_avatar (Some a)) rows
  | None => rows
  end.

(** [player.update({ password })]. *)
Definition Player_update_password (player : Player.t) (hashed : string)
    (rows : list Player.t) : list Player.t :=
  update_where (has_id (Player.id player)) (Player.set_password hashed) rows.

(** [app.post("/create-player")] *)
Definition create_player (req : request) (st : state) : state * response :=
  match nonempty (Body.username (body req)), nonempty (Body.password (body req)) with
  | Some username, Some password =>
      let failed := respond 500 (error "Failed to create player") in
      await (bcrypt_hash (Some password) (salt req)) (st, failed)
        (fun hashedPassword =>
           match Player_create username hashedPassword (Body.email (body req)) st with
           | (st', Resolved player) =>
               (st', respond 200 (JObj [("success", JBool true);
                                        ("player", Player.toJSON player)]))
           | (st', Rejected) => (st', failed)
           end)
  | _, _ => (st, respond 400 (error "Username and password are required"))
  end.

(** [app.get("/get-players")], [app.get("/get-posts")], [app.get("/players")] *)
Definition get_players (st : state) : state * response :=
  (st, respond 200 (JArr (map Player.toJSON (Player_findAll (players st))))).

(** [app.post("/login")] *)
Definition login (req : request) (st : state) : state * response :=
  let failed :=
    (st, respond 500 (JObj [("success", JBool false);
                            ("error", JStr "Failed to login")])) in
  await (Player_findOne_username (Body.username (body req)) (players st)) failed
    (fun found =>
       match found with
       | None =>
           (st, respond 404 (JObj [("success", JBool false);
                                   ("message", JStr "Player not found")]))
       | Some player =>
           await (bcrypt_compare (Body.password (body req)) (Player.password player))
             failed
             (fun validPassword =>
                if validPassword then
                  let '(st', announced) :=
                    session_save (cookie req)
                      (User.mk (Player.id player) (Player.username player)) st in
                  (st',
                   mkResponse 200
                     (JObj [("success", JBool true);
                            ("player",
                             JObj [("id", JNum (Player.id player));
                                   ("username", JStr (Player.username player))])])
                     announced)
                else
                  (st, respond 401 (JObj [("success", JBool false);
                                          ("message", JStr "Invalid password")])))
       end).

(** [app.get("/api/current-user")], after [isAuthenticated] *)
Definition current_user (user : User.t) (st : state) : state * response :=
  match Player_findOne_id (User.id user) (players st) with
  | None => (st, respond 404 (error "User not found"))
  | Some player =>
      (st, respond 200
             (Player.toJSON_attributes
                ["id"; "username"; "email"; "display_name"; "theme"; "avatar";
                 "points"; "coins"] player))
  end.

(** [app.get("/api/player/:username")] *)
Definition get_player (username : string) (st : state) : state * response :=
  await (Player_findOne_username (Some username) (players st))
    (st, respond 500 (error "Failed to fetch player"))
    (fun found =>
       match found with
       | None => (st, respond 404 (error "Player not found"))
       | Some player => (st, respond 200 (Player.toJSON player))
       end).

(** [app.post("/api/update-profile")], after [isAuthenticated] *)
Definition update_profile (req : request) (user : User.t) (st : state)
    : state * response :=
  match Player_findOne_id (User.id user) (players st) with
  | None => (st, respond 404 (error "User not found"))
  | Some player =>
      await (Player_update_profile player
               (js_or (Body.email (body req)) (Player.email player))
               (js_or (Body.displayName (body req)) (Player.display_name player))
               (js_or_s (Body.theme (body req)) (Player.theme player))
               (js_or (Body.avatar (body req)) (Player.avatar player))
               (players st))
        (st, respond 500 (error "Failed to update profile"))
        (fun rows =>
           (set_players rows st,
            respond 200 (JObj [("success", JBool true);
                               ("message", JStr "Profile updated successfully")])))
  end.

(** [app.post("/api/upload-avatar")], after [isAuthenticated] *)
Definition upload_avatar (req : request) (user : User.t) (st : state)
    : state * response :=
  match Player_findOne_id (User.id user) (players st) with
  | None => (st, respond 404 (error "User not found"))
  | Some player =>
      (set_players (Player_update_avatar player (Body.avatar (body req)) (players st)) st,
       respond 200 (JObj [("success", JBool true);
                          ("message", JStr "Avatar uploaded successfully")]))
  end.

(** [app.post("/api/change-password")], after [isAuthenticated] *)
Definition change_password (req : request) (user : User.t) (st : state)
    : state * response :=
  let failed := (st, respond 500 (error "Failed to change password")) in
  match Player_findOne_id (User.id user) (players st) with
  | None => (st, respond 404 (error "User not found"))
  | Some player =>
      await (bcrypt_compare (Body.currentPassword (body req)) (Player.password player))
        failed
        (fun isMatch =>
           if isMatch then
             await (bcrypt_hash (Body.newPassword (body req)) (salt req)) failed
               (fun hashedPassword =>
                  (set_players (Player_update_password player hashedPassword (players st)) st,
                   respond 200 (JObj [("success", JBool true);
                                      ("message", JStr "Password changed successfully")])))
           else (st, respond 401 (error "Current password is incorrect")))
  end.

(** [app.post("/api/delete-account")], after [isAuthenticated] *)
Definition delete_account (req : request) (user : User.t) (st : state)
    : state * response :=
  match Player_findOne_id (User.id user) (players st) with
  | None => (st, respond 404 (error "User not found"))
  | Some player =>
      (session_destroy (cookie req)
         (set_players (Player_destroy player (players st)) st),
       respond 200 (JObj [("success", JBool true);
                          ("message", JStr "Account deleted successfully")]))
  end.

(** [app.post("/api/logout-others")], after [isAuthenticated] *)
Definition logout_others (st : state) : state * response :=
  (st, respond 200 (JObj [("success", JBool true);
                          ("message", JStr "Other sessions logged out")])).

(** [app.post("/api/reward")] *)
Definition reward (req : request) (st : state) : state * response :=
  match nonempty (Body.username (body req)) with
  | None => (st, respond 400 (error "Username is required"))
  | Some username =>
      await (Player_findOne_username (Some username) (players st))
        (st, respond 500 (error "Failed to apply reward"))
        (fun found =>
           match found with
           | None => (st, respond 404 (error "Player not found"))
           | Some player =>
               let newCoins := Player.coins player + js_or_zero (Body.coins (body req)) in
               if Z.ltb newCoins 0 then
                 (st, respond 400 (error "Not enough coins"))
               else
                 let player' :=
                   Player.set_coins newCoins
                     (Player.set_points
                        (Player.points player + js_or_zero (Body.points (body req)))
                        player) in
                 await (Player_save player' (players st))
                   (st, respond 500 (error "Failed to apply reward"))
                   (fun rows =>
                      (set_players rows st,
                       respond 200 (JObj [("success", JBool true);
                                          ("message", JStr "Reward applied");
                                          ("player", Player.toJSON player')])))
           end)
  end.

(** [app.post("/update-coins")] *)
Definition update_coins (req : request) (st : state) : state * response :=
  match nonempty (Body.username (body req)) with
  | None => (st, respond 400 (error "Username required"))
  | Some username =>
      await (query_update_coins (Body.coins (body req)) username (players st))
        (st, respond 500 (error "Failed to update coins"))
        (fun rows =>
           (set_players rows st,
            respond 200 (JObj (("success", JBool true) ::
                               match Body.coins (body req) with
                               | Some c => [("coins", JNum c)]
                               | None => []
                               end))))
  end.

(** [app.post("/update-progress")] *)
Definition update_progress (req : request) (st : state) : state * response :=
  match nonempty (Body.username (body req)) with
  | None => (st, respond 400 (error "Username required"))
  | Some username =>
      await (query_update_progress (Body.coins (body req))
               (option_map JSON_stringify (Body.unlockedLevels (body req)))
               username (players st))
        (st, respond 500 (error "Failed to update progress"))
        (fun rows => (set_players rows st, respond 200 (JObj [("success", JBool true)])))
  end.

(** The application: the route of the request selects the handler, behind
    [isAuthenticated] where the route names it. *)
Definition handle (st : state) (req : request) : state * response :=
  match route req with
  | POST_create_player => create_player req st
  | GET_get_players | GET_get_posts | GET_players => get_players st
  | POST_login => login req st
  | GET_api_current_user => isAuthenticated req st (fun u => current_user u st)
  | GET_api_player username => get_player username st
  | POST_api_update_profile => isAuthenticated req st (fun u => update_profile req u st)
  | POST_api_upload_avatar => isAuthenticated req st (fun u => upload_avatar req u st)
  | POST_api_change_password => isAuthenticated req st (fun u => change_password req u st)
  | POST_api_delete_account => isAuthenticated req st (fun u => delete_account req u st)
  | POST_api_logout_others => isAuthenticated req st (fun _ => logout_others st)
  | POST_api_reward => reward req st
  | POST_update_coins => update_coins req st
  | POST_update_progress => update_progress req st
  end.

(** The state after a sequence of requests. *)
Fixpoint run (st : state) (reqs : list request) : state :=
  match reqs with
  | [] => st
  | req :: rest => run (fst (handle st req)) rest
  end.

End Routes.

(** ** Reading a response in the error taxonomy of the specification *)

Inductive error_kind : Type :=
| MissingField
| Conflict
| NotFound
| InvalidCredential
| Unauthenticated
| InsufficientCoins
| Internal.

(** The text of an error response: its [error] member, or its [message]
    member on the login route. *)
Definition error_text (r : response) : string :=
  match payload r with
  | JObj members =>
      match member "error" members, member "message" members with
      | Some (JStr s), _ => s
      | _, Some (JStr s) => s
      | _, _ => ""
      end
  | _ => ""
  end.

(** The kind that the specification gives to a response: the status
    separates user errors (400), authentication (401), absence (404) and
    storage failures (500); within 400 and 401 the text of the route
    separates the kinds.  A uniqueness conflict would be a 409. *)
Definition spec_error_kind (r : response) : option error_kind :=
  if Z.eqb (status r) 200 then None
  else if Z.eqb (status r) 400 then
    if String.eqb (error_text r) "Not enough coins" then Some InsufficientCoins
    else Some MissingField
  else if Z.eqb (status r) 401 then
    if String.eqb (error_text r) "Not authenticated" then Some Unauthenticated
    else Some InvalidCredential
  else if Z.eqb (status r) 404 then Some NotFound
  else if Z.eqb (status r) 409 then Some Conflict
  else Some Internal.

(** The routes registered behind [isAuthenticated]. *)
Definition identity_gated (e : endpoint) : bool :=
  match e with
  | GET_api_current_user | POST_api_update_profile | POST_api_upload_avatar
  | POST_api_change_password | POST_api_delete_account | POST_api_logout_others => true
  | _ => false
  end.

(** The routes that pass a [Player] instance read with every attribute, or
    a list of such instances, to [res.json]. *)
Definition returns_whole_row (e : endpoint) : bool :=
  match e with
  | POST_create_player | GET_get_players | GET_get_posts | GET_players
  | GET_api_player _ | POST_api_reward => true
  | _ => false
  end.


(** The cookie that the client holds once it has received the response. *)
Definition cookie_after (req : request) (r : response) : option nat :=
  match set_cookie r with
  | Some sid => Some sid
  | None => cookie req
  end.

(** The response of [isAuthenticated] to a request without a bound session. *)
Definition not_authenticated : response := respond 401 (error "Not authenticated").

(** Every stored session was issued: its identifier is below the next one. *)
Definition sessions_wf (st : state) : Prop :=
  forall sid : nat, is_Some (sessions st !! sid) -> (sid < next_sid st)%nat.

(** The session [sid] was issued and is no longer in the store. *)
Definition destroyed (sid : nat) (st : state) : Prop :=
  sessions st !! sid = None /\ (sid < next_sid st)%nat.

(** The number of rows with the username [u]. *)
Definition username_count (u : string) (rows : list Player.t) : nat :=
  length (List.filter (has_username u) rows).

(** The unique index on [username]. *)
Definition unique_usernames (rows : list Player.t) : Prop :=
  List.NoDup (map Player.username rows).

(** No row has the empty string for a username. *)
Definition usernames_nonempty (rows : list Player.t) : Prop :=
  ~ In "" (map Player.username rows).

(** The routes that start with a check of [username]. *)
Definition requires_username (e : endpoint) : bool :=
  match e with
  | POST_create_player | POST_api_reward | POST_update_coins | POST_update_progress => true
  | _ => false
  end.

(** The text of the 400 response of such a route. *)
Definition missing_field_text (e : endpoint) : string :=
  match e with
  | POST_create_player => "Username and password are required"
  | POST_api_reward => "Username is required"
  | _ => "Username required"
  end.

(** The three routes that list the table. *)
Definition lists_players (e : endpoint) : bool :=
  match e with
  | GET_get_players | GET_get_posts | GET_players => true
  | _ => false
  end.

(** The attributes of the model that the statements of a route assign. *)
Definition written_attributes (e : endpoint) : list string :=
  match e with
  | POST_api_update_profile => ["email"; "display_name"; "theme"; "avatar"]
  | POST_api_upload_avatar => ["avatar"]
  | POST_api_change_password => ["password"]
  | POST_api_reward => ["points"; "coins"]
  | POST_update_coins => ["coins"]
  | POST_update_progress => ["coins"]
  | _ => []
  end.

(** The two routes whose UPDATE takes the coins of the body as they are. *)
Definition sets_coins_directly (e : endpoint) : bool :=
  match e with
  | POST_update_coins | POST_update_progress => true
  | _ => false
  end.

(** The primary key: the [id]s of the rows are distinct and were drawn from
    the sequence. *)
Definition ids_wf (st : state) : Prop :=
  List.NoDup (map Player.id (players st))
  /\ forall r, In r (players st) -> Player.id r < players_id_seq st.

(** No row has a negative number of coins. *)
Definition coins_nonnegative (rows : list Player.t) : Prop :=
  forall r, In r rows -> 0 <= Player.coins r.

(** ** A concrete instance of the libraries, for the examples *)

Module Demo.

(** The password follows the salt. *)
Definition salted (salt plain : string) : string :=
  String.append salt (String.append "$" plain).

Definition ends_with (plain hashed : string) : bool :=
  let n := String.length plain in
  let m := String.length hashed in
  Nat.leb (S n) m
  && String.eqb (String.substring (m - S n) (S n) hashed) (String.append "$" plain).

Fixpoint has_at (s : string) : bool :=
  match s with
  | EmptyString => false
  | String c rest => Ascii.eqb c "@"%char || has_at rest
  end.

Definition libraries : Libraries :=
  {| hash_with_salt := salted;
     verify := ends_with;
     JSON_stringify := fun _ => "[]";
     isEmail := has_at;
     scan_order := fun rows => rows;
     scan_order_all := fun rows => Permutation_refl rows |}.

Definition body_of (username password : option string) : Body.t :=
  Body.mk username password None None None None None None None None None.

Definition create (u p : string) : request :=
  mkRequest None POST_create_player (body_of (Some u) (Some p)) "s4lt".

Definition log_in (c : option nat) (u p : string) : request :=
  mkRequest c POST_login (body_of (Some u) (Some p)) "".

Definition amount (u : string) (points coins : option Z) (e : endpoint) : request :=
  mkRequest None e
    (Body.mk (Some u) None None None None None None None points coins (Some (JArr [])))
    "".


Definition with_cookie (c : option nat) (e : endpoint) : request :=
  mkRequest c e Body.empty "".

(** The state after the account [alice] has been created. *)
Definition one_player : state :=
  fst (@handle libraries init (create "alice" "secret")).

(** The state after [alice] has been given five coins. *)
Definition five_coins : state :=
  fst (@handle libraries one_player (amount "alice" None (Some 5) POST_api_reward)).

(** The state after [alice] has logged in: her session is number 0. *)
Definition logged_in : state :=
  fst (@handle libraries one_player (log_in None "alice" "secret")).

Definition change (c : option nat) (current new : string) : request :=
  mkRequest c POST_api_change_password
    (Body.mk None None None None None None (Some current) (Some new) None None None)
    "pepper".


(** The state after [alice] has logged in a second time, from another
    client: her sessions are numbers 0 and 1. *)
Definition two_sessions : state :=
  fst (@handle libraries logged_in (log_in None "alice" "secret")).

(** The state after [bob] has been created beside [alice]. *)
Definition two_players : state :=
  fst (@handle libraries logged_in (create "bob" "hunter2")).

End Demo.

(** ** Facts about the table operations *)

Lemma js_or_zero_default (v : option Z) : js_or_zero v = default 0 v.
Proof.
  destruct v as [n|]; simpl; [|reflexivity].
  destruct (Z.eqb_spec n 0); congruence.
Qed.

Lemma nonempty_Some (v : option string) (s : string) :
  nonempty v = Some s <-> v = Some s /\ s <> "".
Proof.
  unfold nonempty. destruct v as [x|]; [|split; [discriminate | intros [? _]; discriminate]].
  destruct (String.eqb_spec x ""); split.
  - discriminate.
  - intros [[= ->] Hne]. contradiction.
  - intros [= ->]. split; [reflexivity | assumption].
  - intros [[= ->] _]. reflexivity.
Qed.

Lemma nonempty_of (s : string) : s <> "" -> nonempty (Some s) = Some s.
Proof. intros Hs. apply nonempty_Some. split; [reflexivity | assumption]. Qed.

Lemma has_username_true (u : string) (r : Player.t) :
  has_username u r = true <-> Player.username r = u.
Proof. unfold has_username. apply String.eqb_eq. Qed.

Lemma has_id_true (i : Z) (r : Player.t) : has_id i r = true <-> Player.id r = i.
Proof. unfold has_id. apply Z.eqb_eq. Qed.

Section UpdateWhere.

Variables (cond : Player.t -> bool) (assign : Player.t -> Player.t).

(** An UPDATE that matches no row changes nothing. *)
Lemma update_where_no_match (rows : list Player.t) :
  find cond rows = None -> update_where cond assign rows = rows.
Proof.
  induction rows as [|r rows IH]; simpl; [reflexivity|].
  destruct (cond r) eqn:Hr; [discriminate|].
  intros Hnone. f_equal. apply IH, Hnone.
Qed.

(** A row that the condition leaves out is still in the table. *)
Lemma update_where_keeps (rows : list Player.t) (r : Player.t) :
  In r rows -> cond r = false -> In r (update_where cond assign rows).
Proof.
  intros Hin Hr. unfold update_where. apply in_map_iff.
  exists r. rewrite Hr. split; [reflexivity | assumption].
Qed.

(** Every row that the condition selects carries the assignment. *)
Lemma update_where_selected (rows : list Player.t) (r' : Player.t) :
  In r' (update_where cond assign rows) ->
  (exists r, In r rows /\ cond r = true /\ r' = assign r)
  \/ (In r' rows /\ cond r' = false).
Proof.
  unfold update_where. rewrite in_map_iff. intros (r & Hr & Hin).
  destruct (cond r) eqn:Hc.
  - left. exists r. auto.
  - right. subst r'. auto.
Qed.

(** A lookup by a key that the assignment does not write finds the
    rewritten row. *)
Lemma find_update_where (key : Player.t -> bool) (rows : list Player.t)
    (p : Player.t) :
  (forall r, key (assign r) = key r) ->
  find key rows = Some p ->
  find key (update_where cond assign rows)
  = Some (if cond p then assign p else p).
Proof.
  intros Hkey. induction rows as [|r rows IH]; simpl; [discriminate|].
  destruct (key r) eqn:Hr.
  - intros [= ->]. destruct (cond p); [rewrite Hkey|]; rewrite Hr; reflexivity.
  - intros Hfind. destruct (cond r); [rewrite Hkey|]; rewrite Hr; apply IH, Hfind.
Qed.

Lemma find_update_where_none (key : Player.t -> bool) (rows : list Player.t) :
  (forall r, key (assign r) = key r) ->
  find key rows = None ->
  find key (update_where cond assign rows) = None.
Proof.
  intros Hkey. induction rows as [|r rows IH]; simpl; [reflexivity|].
  destruct (key r) eqn:Hr; [discriminate|].
  intros Hfind. destruct (cond r); [rewrite Hkey|]; rewrite Hr; apply IH, Hfind.
Qed.

(** An assignment that does not write [username] keeps the usernames of
    the table, row by row. *)
Lemma update_where_usernames (rows : list Player.t) :
  (forall r, Player.username (assign r) = Player.username r) ->
  map Player.username (update_where cond assign rows) = map Player.username rows.
Proof.
  intros Hname. unfold update_where. rewrite map_map. apply map_ext.
  intros r. destruct (cond r); [apply Hname | reflexivity].
Qed.

End UpdateWhere.

Lemma find_some_in (key : Player.t -> bool) (rows : list Player.t) (p : Player.t) :
  find key rows = Some p -> In p rows /\ key p = true.
Proof. apply find_some. Qed.

Lemma existsb_find (key : Player.t -> bool) (rows : list Player.t) :
  existsb key rows = true <-> exists p, find key rows = Some p.
Proof.
  induction rows as [|r rows IH]; simpl.
  - split; [discriminate | intros [p Hp]; discriminate].
  - destruct (key r); simpl; [split; eauto | exact IH].
Qed.

(** Under the unique index a username that is present names one row. *)
Lemma filter_absent_username (u : string) (rows : list Player.t) :
  ~ In u (map Player.username rows) -> List.filter (has_username u) rows = [].
Proof.
  induction rows as [|r rows IH]; simpl; [reflexivity|].
  intros Hnotin. destruct (has_username u r) eqn:Hr.
  - exfalso. apply Hnotin. left. apply has_username_true, Hr.
  - apply IH. intros Hin. apply Hnotin. right. exact Hin.
Qed.

Lemma unique_username_count (u : string) (rows : list Player.t) :
  unique_usernames rows ->
  existsb (has_username u) rows = true ->
  username_count u rows = 1%nat.
Proof.
  unfold unique_usernames, username_count.
  induction rows as [|r rows IH]; simpl; [discriminate|].
  intros Hnd Hex. apply List.NoDup_cons_iff in Hnd as [Hnotin Hnd].
  destruct (has_username u r) eqn:Hr; simpl in *.
  - apply has_username_true in Hr. subst u.
    rewrite filter_absent_username; [reflexivity | exact Hnotin].
  - apply IH; assumption.
Qed.

(** ** The reward route *)

Section Reward.

Context `{Libraries}.

(** C2.  A reward whose coins delta would take the coins of the player
    below zero is answered with "Not enough coins" (400, the
    InsufficientCoins kind) and changes nothing: the state after the
    request is the state before it, so the row read for the username still
    has the coins and the points it had, whatever points delta the request
    carries. *)
Theorem reward_insufficient_coins (st : state) (req : request) (u : string)
    (player : Player.t) :
  route req = POST_api_reward ->
  Body.username (body req) = Some u ->
  u <> "" ->
  Player_findOne_username (Some u) (players st) = Resolved (Some player) ->
  Player.coins player + default 0 (Body.coins (body req)) < 0 ->
  handle st req = (st, respond 400 (error "Not enough coins"))
  /\ spec_error_kind (snd (handle st req)) = Some InsufficientCoins
  /\ Player_findOne_username (Some u) (players (fst (handle st req)))
     = Resolved (Some player).
Proof.
  intros Hroute Hu Hne Hfind Hneg.
  assert (Hres : handle st req = (st, respond 400 (error "Not enough coins"))).
  { unfold handle, reward. rewrite Hroute, Hu, (nonempty_of u Hne), Hfind.
    cbn [await]. rewrite js_or_zero_default.
    destruct (Z.ltb_spec (Player.coins player + default 0 (Body.coins (body req))) 0);
      [reflexivity | lia]. }
  rewrite Hres. split; [reflexivity|]. split; [reflexivity | exact Hfind].
Qed.

(** C7, as the code has it.  A reward with integer deltas whose resulting
    coins are not negative, and whose resulting points and coins are
    INTEGERs of the table, adds the points delta to the points and the
    coins delta to the coins of the player, an absent delta counting as 0;
    the two columns of the row are written, the row read for the username
    afterwards carries the sums, the rows of the other players are still in
    the table, and the response carries the updated player. *)
Theorem reward_applied (st : state) (req : request) (u : string)
    (player : Player.t) :
  route req = POST_api_reward ->
  Body.username (body req) = Some u ->
  u <> "" ->
  Player_findOne_username (Some u) (players st) = Resolved (Some player) ->
  0 <= Player.coins player + default 0 (Body.coins (body req)) ->
  int4 (Player.points player + default 0 (Body.points (body req))) = true ->
  int4 (Player.coins player + default 0 (Body.coins (body req))) = true ->
  let player' :=
    Player.set_coins (Player.coins player + default 0 (Body.coins (body req)))
      (Player.set_points (Player.points player + default 0 (Body.points (body req)))
         player) in
  snd (handle st req)
  = respond 200 (JObj [("success", JBool true);
                       ("message", JStr "Reward applied");
                       ("player", Player.toJSON player')])
  /\ Player_save player' (players st) = Resolved (players (fst (handle st req)))
  /\ sessions (fst (handle st req)) = sessions st
  /\ Player_findOne_username (Some u) (players (fst (handle st req)))
     = Resolved (Some player')
  /\ Player.points player' = Player.points player + default 0 (Body.points (body req))
  /\ Player.coins player' = Player.coins player + default 0 (Body.coins (body req))
  /\ (forall r, In r (players st) -> Player.id r <> Player.id player ->
                In r (players (fst (handle st req)))).
Proof.
  intros Hroute Hu Hne Hfind Hpos Hpoints Hcoins player'.
  assert (Hsave : Player_save player' (players st)
                  = Resolved
                      (update_where (has_id (Player.id player))
                         (fun r => Player.set_coins (Player.coins player')
                                     (Player.set_points (Player.points player') r))
                         (players st))).
  { unfold Player_save, player'. cbn [Player.points Player.coins Player.id
      Player.set_coins Player.set_points]. rewrite Hpoints, Hcoins. reflexivity. }
  assert (Hres : handle st req
                 = (set_players
                      (update_where (has_id (Player.id player))
                         (fun r => Player.set_coins (Player.coins player')
                                     (Player.set_points (Player.points player') r))
                         (players st)) st,
                    respond 200 (JObj [("success", JBool true);
                                       ("message", JStr "Reward applied");
                                       ("player", Player.toJSON player')]))).
  { unfold handle, reward. rewrite Hroute, Hu, (nonempty_of u Hne), Hfind.
    cbn [await]. rewrite !js_or_zero_default.
    destruct (Z.ltb_spec (Player.coins player + default 0 (Body.coins (body req))) 0);
      [lia|].
    fold player'. rewrite Hsave. reflexivity. }
  rewrite Hres. cbn [fst snd set_players players sessions].
  split; [reflexivity|]. split; [exact Hsave|]. split; [reflexivity|].
  split; [|split; [reflexivity|split; [reflexivity|]]].
  - injection Hfind as Hfind. unfold Player_findOne_username. f_equal.
    rewrite (find_update_where _ _ (has_username u) _ player); [|reflexivity|exact Hfind].
    assert (Hid : has_id (Player.id player) player = true)
      by (apply has_id_true; reflexivity).
    rewrite Hid. reflexivity.
  - intros r Hin Hid. apply update_where_keeps; [exact Hin|].
    destruct (has_id (Player.id player) r) eqn:Hr; [|reflexivity].
    apply has_id_true in Hr. contradiction.
Qed.

End Reward.

(** The example of the specification: five coins, a reward of minus ten. *)
Lemma reward_insufficient_coins_witness :
  let req := Demo.amount "alice" (Some 7) (Some (-10)) POST_api_reward in
  @handle Demo.libraries Demo.five_coins req
  = (Demo.five_coins, respond 400 (error "Not enough coins"))
  /\ option_map Player.coins (find (has_username "alice") (players Demo.five_coins))
     = Some 5.
Proof.
  split.
  - eapply (@reward_insufficient_coins Demo.libraries Demo.five_coins _ "alice").
    + reflexivity.
    + reflexivity.
    + discriminate.
    + vm_compute. reflexivity.
    + vm_compute. reflexivity.
  - vm_compute. reflexivity.
Defined.

(** C7 fails as it is stated: a reward of 2147483648 points for [alice],
    who has no points and no coins, leaves her coins at 0, which is not
    negative, and is answered 500; her row is as it was. *)
Lemma reward_beyond_integer_refused :
  let req := Demo.amount "alice" (Some 2147483648) None POST_api_reward in
  0 <= 0 + default 0 (Body.coins (body req))
  /\ @handle Demo.libraries Demo.one_player req
     = (Demo.one_player, respond 500 (error "Failed to apply reward"))
  /\ option_map Player.points (find (has_username "alice") (players Demo.one_player))
     = Some 0.
Proof. vm_compute. split; [discriminate|]. split; reflexivity. Qed.

(** The example of the specification: [{points: 10, coins: 3}] on a player
    with no points and no coins. *)
Lemma reward_applied_witness :
  let req := Demo.amount "alice" (Some 10) (Some 3) POST_api_reward in
  exists player',
    Player_findOne_username (Some "alice")
      (players (fst (@handle Demo.libraries Demo.one_player req)))
    = Resolved (Some player')
    /\ Player.points player' = 10 /\ Player.coins player' = 3.
Proof.
  intros req.
  destruct (@reward_applied Demo.libraries Demo.one_player req "alice"
              (Player.mk 1 "alice" None None "system" None 0 0 false false false
                         false false None "s4lt$secret"))
    as (_ & _ & _ & Hfind & Hpoints & Hcoins & _).
  - reflexivity.
  - reflexivity.
  - discriminate.
  - vm_compute. reflexivity.
  - vm_compute. discriminate.
  - reflexivity.
  - reflexivity.
  - eexists. split; [exact Hfind|]. split; [exact Hpoints | exact Hcoins].
Defined.

(** ** The routes that set the coins *)

Section SetCoins.

Context `{Libraries}.

(** C3, as the code has it.  [/update-coins] with the username of an
    existing player and any coins value [c] that is an INTEGER of the table,
    negative ones included, answers [{success: true, coins: c}] and stores
    [c]: no comparison with zero is made, the row read for the username
    afterwards has exactly [c] coins, and so has every row with that
    username. *)
Theorem update_coins_sets_integer (st : state) (req : request) (u : string)
    (player : Player.t) (c : Z) :
  route req = POST_update_coins ->
  Body.username (body req) = Some u ->
  u <> "" ->
  Player_findOne_username (Some u) (players st) = Resolved (Some player) ->
  Body.coins (body req) = Some c ->
  int4 c = true ->
  handle st req
  = (set_players (update_where (has_username u) (Player.set_coins c) (players st)) st,
     respond 200 (JObj [("success", JBool true); ("coins", JNum c)]))
  /\ spec_error_kind (snd (handle st req)) = None
  /\ Player_findOne_username (Some u) (players (fst (handle st req)))
     = Resolved (Some (Player.set_coins c player))
  /\ Player.coins (Player.set_coins c player) = c
  /\ (forall r, In r (players (fst (handle st req))) ->
                Player.username r = u -> Player.coins r = c).
Proof.
  intros Hroute Hu Hne Hfind Hc Hint.
  assert (Hres : handle st req
                 = (set_players (update_where (has_username u) (Player.set_coins c)
                                   (players st)) st,
                    respond 200 (JObj [("success", JBool true); ("coins", JNum c)]))).
  { unfold handle, update_coins, query_update_coins.
    rewrite Hroute, Hu, (nonempty_of u Hne), Hc, Hint. reflexivity. }
  rewrite Hres. cbn [fst snd set_players players].
  split; [reflexivity|]. split; [reflexivity|]. split; [|split; [reflexivity|]].
  - injection Hfind as Hfind. unfold Player_findOne_username. f_equal.
    rewrite (find_update_where _ _ (has_username u) _ player); [|reflexivity|exact Hfind].
    apply find_some_in in Hfind as [_ Hkey]. rewrite Hkey. reflexivity.
  - intros r Hin Hname. apply update_where_selected in Hin as [(r0 & _ & _ & ->)|[_ Hno]].
    + reflexivity.
    + apply has_username_true in Hname. congruence.
Qed.

(** C10, as the code has it.  [/update-coins] and [/update-progress] with a
    username that no row carries leave the state as it was and never answer
    404; [/update-coins] with a non-empty username that no row carries and a
    coins value that is an INTEGER of the table answers its success
    response [{success: true, coins}]: the UPDATE matches no row. *)
Theorem update_without_row (st : state) (req : request) :
  route req = POST_update_coins \/ route req = POST_update_progress ->
  (forall u, Body.username (body req) = Some u ->
             find (has_username u) (players st) = None) ->
  fst (handle st req) = st
  /\ spec_error_kind (snd (handle st req)) <> Some NotFound
  /\ (forall u c,
        route req = POST_update_coins ->
        Body.username (body req) = Some u -> u <> "" ->
        Body.coins (body req) = Some c ->
        int4 c = true ->
        snd (handle st req)
        = respond 200 (JObj [("success", JBool true); ("coins", JNum c)])
        /\ spec_error_kind (snd (handle st req)) = None).
Proof.
  intros Hroute Hnone.
  assert (Hrows : forall u assign, nonempty (Body.username (body req)) = Some u ->
                    update_where (has_username u) assign (players st) = players st).
  { intros u assign Hu. apply nonempty_Some in Hu as [Hu _].
    apply update_where_no_match, Hnone, Hu. }
  assert (Hsame : set_players (players st) st = st) by (destruct st; reflexivity).
  destruct Hroute as [Hroute|Hroute]; unfold handle; rewrite Hroute;
    [unfold update_coins, query_update_coins
    |unfold update_progress, query_update_progress].
  - destruct (nonempty (Body.username (body req))) as [u|] eqn:Hu.
    + destruct (Body.coins (body req)) as [c|] eqn:Hc;
        [destruct (int4 c) eqn:Hint|]; cbn [await fst snd].
      * rewrite (Hrows u _ eq_refl), Hsame.
        split; [reflexivity|]. split; [discriminate|].
        intros u' c' _ _ _ [= <-] _. split; reflexivity.
      * split; [reflexivity|]. split; [discriminate|].
        intros u' c' _ _ _ [= <-] Hc'. congruence.
      * split; [reflexivity|]. split; [discriminate|]. intros u' c' _ _ _ [=].
    + cbn [fst snd]. split; [reflexivity|]. split; [discriminate|].
      intros u' c' _ Hu' Hne _ _. rewrite Hu', (nonempty_of u' Hne) in Hu. discriminate.
  - destruct (nonempty (Body.username (body req))) as [u|] eqn:Hu;
      cbn [await fst snd]; (split; [reflexivity|]); (split; [discriminate|]);
      intros u' c' [=].
Qed.

End SetCoins.

(** C3 fails as it is stated: [/update-coins] with 2147483648 coins for
    [alice], who has five, is answered 500 and her coins are still five. *)
Lemma update_coins_beyond_integer_refused :
  let req := Demo.amount "alice" None (Some 2147483648) POST_update_coins in
  @handle Demo.libraries Demo.five_coins req
  = (Demo.five_coins, respond 500 (error "Failed to update coins"))
  /\ option_map Player.coins (find (has_username "alice") (players Demo.five_coins))
     = Some 5.
Proof. vm_compute. split; reflexivity. Qed.

(** The example of the specification: [/update-coins] with [{coins: -5}]. *)
Lemma update_coins_sets_integer_witness :
  let req := Demo.amount "alice" None (Some (-5)) POST_update_coins in
  status (snd (@handle Demo.libraries Demo.five_coins req)) = 200
  /\ exists player',
       Player_findOne_username (Some "alice")
         (players (fst (@handle Demo.libraries Demo.five_coins req)))
       = Resolved (Some player')
       /\ Player.coins player' = -5.
Proof.
  intros req.
  destruct (@update_coins_sets_integer Demo.libraries Demo.five_coins req "alice"
              (Player.mk 1 "alice" None None "system" None 0 5 false false false
                         false false None "s4lt$secret") (-5))
    as (Hres & _ & Hfind & Hcoins & _).
  - reflexivity.
  - reflexivity.
  - discriminate.
  - vm_compute. reflexivity.
  - reflexivity.
  - reflexivity.
  - split.
    + rewrite Hres. reflexivity.
    + eexists. split; [exact Hfind | exact Hcoins].
Defined.

(** C10 fails as it is stated.  Nobody has the empty username, and
    [/update-coins] for it is answered 400; nobody is called [bob], and
    [/update-coins] for him with 2147483648 coins is answered 500, as is
    [/update-progress] for him with coins and levels. *)
Lemma update_without_row_can_fail :
  let empty := Demo.amount "" None (Some 5) POST_update_coins in
  let wide := Demo.amount "bob" None (Some 2147483648) POST_update_coins in
  let progress := Demo.amount "bob" None (Some 9) POST_update_progress in
  find (has_username "") (players Demo.one_player) = None
  /\ find (has_username "bob") (players Demo.one_player) = None
  /\ snd (@handle Demo.libraries Demo.one_player empty)
     = respond 400 (error "Username required")
  /\ snd (@handle Demo.libraries Demo.one_player wide)
     = respond 500 (error "Failed to update coins")
  /\ snd (@handle Demo.libraries Demo.one_player progress)
     = respond 500 (error "Failed to update progress").
Proof. vm_compute. repeat split. Qed.

(** Nobody is called [bob]: [/update-coins] for him answers 200 and nothing
    changes. *)
Lemma update_without_row_witness :
  let coins := Demo.amount "bob" None (Some 9) POST_update_coins in
  fst (@handle Demo.libraries Demo.one_player coins) = Demo.one_player
  /\ snd (@handle Demo.libraries Demo.one_player coins)
     = respond 200 (JObj [("success", JBool true); ("coins", JNum 9)]).
Proof.
  intros coins.
  assert (Hbob : forall u, Body.username (body coins) = Some u ->
                           find (has_username u) (players Demo.one_player) = None).
  { intros u Hu. injection Hu as <-. reflexivity. }
  destruct (@update_without_row Demo.libraries Demo.one_player coins
              (or_introl eq_refl) Hbob) as (Hst & _ & Hok).
  split; [exact Hst|].
  apply (Hok "bob" 9); [reflexivity | reflexivity | discriminate | reflexivity
                       | reflexivity].
Defined.

(** ** The login route *)

Section Login.

Context `{Libraries}.

(** The session written at the end of a login is the one that the cookie of
    the client names afterwards. *)
Lemma session_save_bound (c : option nat) (u : User.t) (st : state) :
  let '(st', announced) := session_save c u st in
  req_session_user st' (match announced with Some sid => Some sid | None => c end)
  = Some u
  /\ players st' = players st.
Proof.
  unfold session_save. destruct c as [sid|]; [destruct (sessions st !! sid) eqn:Hsid|];
    cbn [req_session_user sessions players]; split; try reflexivity;
    apply lookup_insert_eq.
Qed.

(** A login with the password of the player succeeds. *)
Lemma login_succeeds (st : state) (req : request) (u pw : string) (player : Player.t) :
  route req = POST_login ->
  Body.username (body req) = Some u ->
  Body.password (body req) = Some pw ->
  find (has_username u) (players st) = Some player ->
  verify pw (Player.password player) = true ->
  status (snd (handle st req)) = 200.
Proof.
  intros Hroute Hu Hpw Hfind Hverify. unfold handle, login.
  rewrite Hroute, Hu. cbn [Player_findOne_username await]. rewrite Hfind, Hpw.
  cbn [bcrypt_compare await]. rewrite Hverify.
  destruct (session_save _ _ st). reflexivity.
Qed.

(** C5.  A login that names a username is answered 404 "Player not found"
    (the NotFound kind) when no row has the username, and 401 "Invalid
    password" (the InvalidCredential kind) when the row exists and the
    password does not verify against its stored hash; neither changes the
    state.  The two kinds are told apart: the response is of the NotFound
    kind exactly when no row matches, and of the InvalidCredential kind
    exactly when a row matches and the password given fails the check. *)
Theorem login_failure_kinds (st : state) (req : request) (u : string) :
  route req = POST_login ->
  Body.username (body req) = Some u ->
  (find (has_username u) (players st) = None ->
   handle st req
   = (st, respond 404 (JObj [("success", JBool false);
                             ("message", JStr "Player not found")])))
  /\ (forall player pw,
        find (has_username u) (players st) = Some player ->
        Body.password (body req) = Some pw ->
        verify pw (Player.password player) = false ->
        handle st req
        = (st, respond 401 (JObj [("success", JBool false);
                                  ("message", JStr "Invalid password")])))
  /\ (spec_error_kind (snd (handle st req)) = Some NotFound
      <-> find (has_username u) (players st) = None)
  /\ (spec_error_kind (snd (handle st req)) = Some InvalidCredential
      <-> exists player pw,
            find (has_username u) (players st) = Some player
            /\ Body.password (body req) = Some pw
            /\ verify pw (Player.password player) = false).
Proof.
  intros Hroute Hu. unfold handle, login. rewrite Hroute, Hu.
  cbn [Player_findOne_username await].
  destruct (find (has_username u) (players st)) as [player|] eqn:Hfind.
  - split; [discriminate|].
    destruct (Body.password (body req)) as [pw|] eqn:Hpw; cbn [bcrypt_compare await].
    + destruct (verify pw (Player.password player)) eqn:Hverify.
      * destruct (session_save _ _ st) as [st' announced]. cbn [snd].
        split; [intros p q [= <-] [= <-]; congruence|].
        split; [split; discriminate|].
        split; [discriminate|]. intros (p & q & [= <-] & [= <-] & Hq). congruence.
      * split; [intros p q _ _ _; reflexivity|].
        split; [split; discriminate|].
        split; [|reflexivity]. intros _. exists player, pw. auto.
    + split; [intros p q _ [=]|]. split; [split; discriminate|].
      split; [discriminate|]. intros (p & q & _ & [=] & _).
  - split; [reflexivity|]. split; [discriminate|].
    split; [split; reflexivity|].
    split; [discriminate|]. intros (p & q & [=] & _).
Qed.

(** C6.  A login that succeeds answers [{success: true, player: {id,
    username}}] for the row of the username: the body has these members and
    no others, no [password] member at any depth, and the session named by
    the cookie that the client holds afterwards is bound to [{id, username}]
    of that row.  The table is not written. *)
Theorem login_success (st : state) (req : request) :
  route req = POST_login ->
  status (snd (handle st req)) = 200 ->
  exists u pw player,
    Body.username (body req) = Some u
    /\ Body.password (body req) = Some pw
    /\ find (has_username u) (players st) = Some player
    /\ verify pw (Player.password player) = true
    /\ payload (snd (handle st req))
       = JObj [("success", JBool true);
               ("player", JObj [("id", JNum (Player.id player));
                                ("username", JStr (Player.username player))])]
    /\ has_key "password" (payload (snd (handle st req))) = false
    /\ req_session_user (fst (handle st req))
         (cookie_after req (snd (handle st req)))
       = Some (User.mk (Player.id player) (Player.username player))
    /\ players (fst (handle st req)) = players st.
Proof.
  intros Hroute. unfold handle, login. rewrite Hroute.
  destruct (Body.username (body req)) as [u|]; cbn [Player_findOne_username await];
    [|discriminate].
  destruct (find (has_username u) (players st)) as [player|] eqn:Hfind; [|discriminate].
  destruct (Body.password (body req)) as [pw|]; cbn [bcrypt_compare await];
    [|discriminate].
  destruct (verify pw (Player.password player)) eqn:Hverify; [|discriminate].
  pose proof (session_save_bound (cookie req)
                (User.mk (Player.id player) (Player.username player)) st) as Hsave.
  destruct (session_save _ _ st) as [st' announced]. destruct Hsave as [Hbound Hrows].
  intros _. exists u, pw, player. cbn [fst snd payload].
  do 2 (split; [reflexivity|]). split; [exact Hfind|]. split; [exact Hverify|].
  do 2 (split; [reflexivity|]). split; [|exact Hrows].
  unfold cookie_after. cbn [set_cookie]. exact Hbound.
Qed.

End Login.

(** Nobody is called [bob], and [wrong] is not the password of [alice]. *)
Lemma login_failure_kinds_witness :
  @handle Demo.libraries Demo.one_player (Demo.log_in None "bob" "secret")
  = (Demo.one_player,
     respond 404 (JObj [("success", JBool false); ("message", JStr "Player not found")]))
  /\ @handle Demo.libraries Demo.one_player (Demo.log_in None "alice" "wrong")
     = (Demo.one_player,
        respond 401 (JObj [("success", JBool false); ("message", JStr "Invalid password")])).
Proof.
  split.
  - apply (@login_failure_kinds Demo.libraries Demo.one_player
             (Demo.log_in None "bob" "secret") "bob"); reflexivity.
  - eapply (proj1 (proj2 (@login_failure_kinds Demo.libraries Demo.one_player
                            (Demo.log_in None "alice" "wrong") "alice"
                            eq_refl eq_refl))).
    + vm_compute. reflexivity.
    + reflexivity.
    + vm_compute. reflexivity.
Defined.

(** [alice] logs in with her password and without a cookie: the response
    announces session 0, bound to her [id] and [username]. *)
Lemma login_success_witness :
  let req := Demo.log_in None "alice" "secret" in
  status (snd (@handle Demo.libraries Demo.one_player req)) = 200
  /\ exists player,
       find (has_username "alice") (players Demo.one_player) = Some player
       /\ payload (snd (@handle Demo.libraries Demo.one_player req))
          = JObj [("success", JBool true);
                  ("player", JObj [("id", JNum (Player.id player));
                                   ("username", JStr (Player.username player))])]
       /\ req_session_user (fst (@handle Demo.libraries Demo.one_player req))
            (cookie_after req (snd (@handle Demo.libraries Demo.one_player req)))
          = Some (User.mk (Player.id player) (Player.username player)).
Proof.
  intros req.
  assert (Hok : status (snd (@handle Demo.libraries Demo.one_player req)) = 200)
    by (vm_compute; reflexivity).
  split; [exact Hok|].
  destruct (@login_success Demo.libraries Demo.one_player req eq_refl Hok)
    as (u & pw & player & Hu & _ & Hfind & _ & Hpayload & _ & Hsession & _).
  injection Hu as <-. exists player.
  split; [exact Hfind|]. split; [exact Hpayload | exact Hsession].
Defined.

(** ** Sessions and the identity gate *)

(** Case analysis on every test that a handler makes. *)
Ltac handler_cases :=
  repeat match goal with
         | |- context [match ?x with _ => _ end] =>
             lazymatch x with
             | context [match _ with _ => _ end] => fail
             | _ => destruct x eqn:?
             end
         end.

Section Sessions.

Context `{Libraries}.

(** What a request does to the session store: nothing, or the save of a
    login, or the destruction of the session of the request. *)
Lemma handle_sessions (st : state) (req : request) :
  (sessions (fst (handle st req)) = sessions st
   /\ next_sid (fst (handle st req)) = next_sid st)
  \/ (exists u, route req = POST_login
               /\ sessions (fst (handle st req))
                  = sessions (fst (session_save (cookie req) u st))
               /\ next_sid (fst (handle st req))
                  = next_sid (fst (session_save (cookie req) u st)))
  \/ (route req = POST_api_delete_account
      /\ is_Some (req_session_user st (cookie req))
      /\ status (snd (handle st req)) = 200
      /\ sessions (fst (handle st req))
         = sessions (session_destroy (cookie req) st)
      /\ next_sid (fst (handle st req)) = next_sid st).
Proof.
  unfold handle.
  destruct (route req) eqn:Hroute;
    try (left; unfold create_player, get_players, get_player, reward, update_coins,
           update_progress, isAuthenticated, current_user, update_profile,
           upload_avatar, change_password, logout_others, Player_create, await;
         handler_cases; split; reflexivity).
  - (* /login *)
    unfold login, await. 
    destruct (Player_findOne_username _ _) as [[player|]|]; [|left; split; reflexivity..].
    destruct (bcrypt_compare _ _) as [[|]|]; [|left; split; reflexivity..].
    right. left. exists (User.mk (Player.id player) (Player.username player)).
    split; [reflexivity|].
    destruct (session_save _ _ st). split; reflexivity.
  - (* /api/delete-account *)
    unfold isAuthenticated, delete_account.
    destruct (req_session_user st (cookie req)) as [user|] eqn:Huser;
      [|left; split; reflexivity].
    destruct (Player_findOne_id _ _); [|left; split; reflexivity].
    right. right. split; [reflexivity|]. split; [eexists; reflexivity|].
    split; [reflexivity|]. destruct (cookie req); split; reflexivity.
Qed.

Lemma session_save_destroyed (t : nat) (c : option nat) (u : User.t) (st : state) :
  destroyed t st -> destroyed t (fst (session_save c u st)).
Proof.
  intros [Hnone Hlt]. unfold destroyed, session_save.
  destruct c as [sid|]; [destruct (sessions st !! sid) eqn:Hsid|];
    cbn [fst sessions next_sid]; split; try lia.
  - rewrite lookup_insert_ne; [exact Hnone | congruence].
  - rewrite lookup_insert_ne; [exact Hnone | lia].
  - rewrite lookup_insert_ne; [exact Hnone | lia].
Qed.

Lemma session_save_wf (c : option nat) (u : User.t) (st : state) :
  sessions_wf st -> sessions_wf (fst (session_save c u st)).
Proof.
  intros Hwf sid. unfold session_save.
  destruct c as [c|]; [destruct (sessions st !! c) eqn:Hc|];
    cbn [fst sessions next_sid]; intros Hsome.
  - destruct (decide (c = sid)) as [<-|Hne].
    + apply Hwf. rewrite Hc. eexists; reflexivity.
    + rewrite lookup_insert_ne in Hsome by exact Hne. apply Hwf, Hsome.
  - destruct (decide (next_sid st = sid)) as [<-|Hne]; [lia|].
    rewrite lookup_insert_ne in Hsome by exact Hne. apply Hwf in Hsome. lia.
  - destruct (decide (next_sid st = sid)) as [<-|Hne]; [lia|].
    rewrite lookup_insert_ne in Hsome by exact Hne. apply Hwf in Hsome. lia.
Qed.

(** A session that was destroyed stays out of the store: identifiers are
    not issued twice. *)
Lemma handle_destroyed (t : nat) (st : state) (req : request) :
  destroyed t st -> destroyed t (fst (handle st req)).
Proof.
  intros Ht. destruct (handle_sessions st req)
    as [[Hs Hn]|[(u & _ & Hs & Hn)|(_ & _ & _ & Hs & Hn)]];
    unfold destroyed; rewrite Hs, Hn.
  - exact Ht.
  - apply (session_save_destroyed t (cookie req) u st Ht).
  - destruct Ht as [Hnone Hlt]. split; [|exact Hlt].
    unfold session_destroy. destruct (cookie req) as [sid|]; [|exact Hnone].
    cbn [sessions]. destruct (decide (sid = t)) as [->|Hne].
    + apply lookup_delete_eq.
    + rewrite lookup_delete_ne by exact Hne. exact Hnone.
Qed.

Lemma run_destroyed (t : nat) (reqs : list request) (st : state) :
  destroyed t st -> destroyed t (run st reqs).
Proof.
  revert st. induction reqs as [|req reqs IH]; intros st Ht; simpl; [exact Ht|].
  apply IH, handle_destroyed, Ht.
Qed.

(** The store only holds sessions that were issued, from the start on. *)
Lemma init_sessions_wf : sessions_wf init.
Proof. intros sid [u Hu]. cbn in Hu. rewrite lookup_empty in Hu. discriminate. Qed.

Lemma handle_sessions_wf (st : state) (req : request) :
  sessions_wf st -> sessions_wf (fst (handle st req)).
Proof.
  intros Hwf. destruct (handle_sessions st req)
    as [[Hs Hn]|[(u & _ & Hs & Hn)|(_ & _ & _ & Hs & Hn)]];
    unfold sessions_wf; rewrite Hs, Hn.
  - exact Hwf.
  - apply (session_save_wf (cookie req) u st Hwf).
  - intros sid Hsome. apply Hwf. unfold session_destroy in Hsome.
    destruct (cookie req) as [c|]; [|exact Hsome]. cbn [sessions] in Hsome.
    destruct (decide (c = sid)) as [->|Hne].
    + rewrite lookup_delete_eq in Hsome. destruct Hsome as [? [=]].
    + rewrite lookup_delete_ne in Hsome by exact Hne. exact Hsome.
Qed.

Lemma run_sessions_wf (reqs : list request) (st : state) :
  sessions_wf st -> sessions_wf (run st reqs).
Proof.
  revert st. induction reqs as [|req reqs IH]; intros st Hwf; simpl; [exact Hwf|].
  apply IH, handle_sessions_wf, Hwf.
Qed.

(** The gate answers for the route when the request has no bound session. *)
Lemma gate_closed (st : state) (req : request) :
  identity_gated (route req) = true ->
  req_session_user st (cookie req) = None ->
  handle st req = (st, not_authenticated).
Proof.
  intros Hgated Hnone. unfold handle, isAuthenticated.
  destruct (route req); try discriminate; rewrite Hnone; reflexivity.
Qed.

(** C8.  A request to a route behind [isAuthenticated] that has no bound
    session is answered 401 "Not authenticated" (the Unauthenticated kind)
    with the state untouched, whatever the handler of the route is: the
    handler is not called.  And once [/api/delete-account] has succeeded for
    a request, every later request to such a route that carries the cookie
    of that request is answered the same way, after any sequence of
    requests in between. *)
Theorem identity_gate (st : state) (req : request) :
  identity_gated (route req) = true ->
  (req_session_user st (cookie req) = None ->
   handle st req = (st, not_authenticated)
   /\ spec_error_kind (snd (handle st req)) = Some Unauthenticated
   /\ forall next, isAuthenticated req st next = (st, not_authenticated))
  /\ (forall st0 del between,
        sessions_wf st0 ->
        route del = POST_api_delete_account ->
        status (snd (handle st0 del)) = 200 ->
        cookie req = cookie del ->
        st = run (fst (handle st0 del)) between ->
        req_session_user st (cookie req) = None
        /\ handle st req = (st, not_authenticated)
        /\ spec_error_kind (snd (handle st req)) = Some Unauthenticated).
Proof.
  intros Hgated.
  assert (Hclosed : req_session_user st (cookie req) = None ->
                    handle st req = (st, not_authenticated)
                    /\ spec_error_kind (snd (handle st req)) = Some Unauthenticated).
  { intros Hnone. rewrite (gate_closed st req Hgated Hnone). split; reflexivity. }
  split.
  - intros Hnone. destruct (Hclosed Hnone) as [Hres Hkind].
    split; [exact Hres|]. split; [exact Hkind|].
    intros next. unfold isAuthenticated. rewrite Hnone. reflexivity.
  - intros st0 del between Hwf Hroute Hok Hcookie ->.
    assert (Hnone : req_session_user (run (fst (handle st0 del)) between) (cookie req)
                    = None).
    { rewrite Hcookie. destruct (cookie del) as [t|] eqn:Ht; [|reflexivity].
      cbn [req_session_user]. apply (run_destroyed t). 
      destruct (handle_sessions st0 del)
        as [[Hs Hn]|[(u & Hlogin & _)|(_ & Hsome & _ & Hs & Hn)]].
      - (* the request did not pass the gate: its status is not 200 *)
        exfalso. revert Hok Hs. unfold handle, isAuthenticated, delete_account.
        rewrite Hroute, Ht. cbn [req_session_user].
        destruct (sessions st0 !! t) as [user|] eqn:Hsess; [|discriminate].
        destruct (Player_findOne_id _ _); [|discriminate].
        intros _. cbn [fst session_destroy sessions set_players].
        intros Hs. assert (Hlook : delete t (sessions st0) !! t = sessions st0 !! t)
          by (rewrite Hs; reflexivity).
        rewrite lookup_delete_eq, Hsess in Hlook. discriminate.
      - congruence.
      - unfold destroyed. rewrite Hs, Hn, Ht. cbn [session_destroy sessions].
        split; [apply lookup_delete_eq|].
        apply Hwf. rewrite Ht in Hsome. exact Hsome. }
    split; [exact Hnone | exact (Hclosed Hnone)].
Qed.

End Sessions.

(** [alice] deletes her account under session 0; the account is created
    again and a login that still sends the old cookie gets session 1; the
    old cookie stays without a session.  A request without any cookie is
    turned away as well. *)
Lemma identity_gate_witness :
  let del := Demo.with_cookie (Some 0%nat) POST_api_delete_account in
  let between := [Demo.create "alice" "again"; Demo.log_in (Some 0%nat) "alice" "again"] in
  let st := @run Demo.libraries (fst (@handle Demo.libraries Demo.logged_in del)) between in
  let req := Demo.with_cookie (Some 0%nat) GET_api_current_user in
  let anonymous := Demo.with_cookie None POST_api_update_profile in
  status (snd (@handle Demo.libraries Demo.logged_in del)) = 200
  /\ sessions st !! 1%nat = Some (User.mk 2 "alice")
  /\ @handle Demo.libraries st req = (st, not_authenticated)
  /\ @handle Demo.libraries Demo.logged_in anonymous = (Demo.logged_in, not_authenticated).
Proof.
  intros del between st req anonymous.
  assert (Hok : status (snd (@handle Demo.libraries Demo.logged_in del)) = 200)
    by (vm_compute; reflexivity).
  split; [exact Hok|]. split; [vm_compute; reflexivity|]. split.
  - destruct (@identity_gate Demo.libraries st req eq_refl) as [_ Hafter].
    apply (Hafter Demo.logged_in del between).
    + apply handle_sessions_wf, handle_sessions_wf, init_sessions_wf.
    + reflexivity.
    + exact Hok.
    + reflexivity.
    + reflexivity.
  - destruct (@identity_gate Demo.libraries Demo.logged_in anonymous eq_refl)
      as [Hclosed _].
    apply Hclosed. reflexivity.
Defined.

(** ** The password column in the responses *)

Section PasswordColumn.

Context `{Libraries}.

Lemma has_key_json_of_string (k : string) (o : option string) :
  has_key k (json_of_string o) = false.
Proof. destruct o; reflexivity. Qed.

(** The attributes that [/api/current-user] selects leave [password] out. *)
Lemma current_user_json_without_password (player : Player.t) :
  has_key "password"
    (Player.toJSON_attributes
       ["id"; "username"; "email"; "display_name"; "theme"; "avatar"; "points"; "coins"]
       player) = false.
Proof.
  unfold Player.toJSON_attributes, Player.dataValues. cbn.
  rewrite !has_key_json_of_string. reflexivity.
Qed.

(** C1, as the code has it.  The responses of the routes that do not pass
    a whole [Player] instance to [res.json] (login, current-user,
    update-profile, upload-avatar, change-password, delete-account,
    logout-others, update-coins, update-progress) have no [password] member
    at any depth, whatever the state and the request, success or error. *)
Theorem password_absent_without_whole_row (st : state) (req : request) :
  returns_whole_row (route req) = false ->
  has_key "password" (payload (snd (handle st req))) = false.
Proof.
  intros Hroute. unfold handle.
  destruct (route req); try discriminate Hroute; clear Hroute;
    unfold login, isAuthenticated, current_user, update_profile, upload_avatar,
      change_password, delete_account, logout_others, update_coins, update_progress,
      await;
    handler_cases; cbn [snd payload respond];
    try reflexivity; apply current_user_json_without_password.
Qed.

End PasswordColumn.

(** C1 fails as it is stated: the success responses of [/create-player] and
    of [/api/reward] carry the row of the player, and with it the [password]
    column, which holds the stored hash. *)
Lemma password_in_success_responses :
  let hashed := hash_with_salt (Libraries := Demo.libraries) "s4lt" "secret" in
  let created := snd (@handle Demo.libraries init (Demo.create "alice" "secret")) in
  let rewarded :=
    snd (@handle Demo.libraries Demo.one_player
           (Demo.amount "alice" (Some 10) (Some 3) POST_api_reward)) in
  (status created = 200
   /\ has_key "password" (payload created) = true
   /\ payload created
      = JObj [("success", JBool true);
              ("player",
               Player.toJSON
                 (Player.mk 1 "alice" None None "system" None 0 0 false false false
                            false false None hashed))])
  /\ (status rewarded = 200
      /\ has_key "password" (payload rewarded) = true
      /\ payload rewarded
         = JObj [("success", JBool true);
                 ("message", JStr "Reward applied");
                 ("player",
                  Player.toJSON
                    (Player.mk 1 "alice" None None "system" None 10 3 false false false
                               false false None hashed))]).
Proof. vm_compute. repeat split. Qed.

(** A login, and a request for the current user under the session of the
    login: neither response has a [password] member. *)
Lemma password_absent_without_whole_row_witness :
  has_key "password"
    (payload (snd (@handle Demo.libraries Demo.one_player
                     (Demo.log_in None "alice" "secret")))) = false
  /\ has_key "password"
       (payload (snd (@handle Demo.libraries Demo.logged_in
                        (Demo.with_cookie (Some 0%nat) GET_api_current_user)))) = false.
Proof.
  split.
  - apply (@password_absent_without_whole_row Demo.libraries). reflexivity.
  - apply (@password_absent_without_whole_row Demo.libraries). reflexivity.
Defined.

(** ** Account creation under the unique index *)

Section CreatePlayer.

Context `{Libraries}.

(** C4, as the code has it.  [/create-player] with a username that a row
    already carries is answered by the [catch] block of the route: 500
    "Failed to create player", the response of any storage failure (the
    Internal kind); no row is added, and under the unique index the table
    still holds exactly one row with that username. *)
Theorem duplicate_username_rejected (st : state) (req : request) (u pw : string) :
  route req = POST_create_player ->
  Body.username (body req) = Some u -> u <> "" ->
  Body.password (body req) = Some pw -> pw <> "" ->
  existsb (has_username u) (players st) = true ->
  snd (handle st req) = respond 500 (error "Failed to create player")
  /\ spec_error_kind (snd (handle st req)) = Some Internal
  /\ players (fst (handle st req)) = players st
  /\ sessions (fst (handle st req)) = sessions st
  /\ (unique_usernames (players st) ->
      username_count u (players (fst (handle st req))) = 1%nat).
Proof.
  intros Hroute Hu Hune Hpw Hpwne Hexists.
  assert (Hres : snd (handle st req) = respond 500 (error "Failed to create player")
                 /\ players (fst (handle st req)) = players st
                 /\ sessions (fst (handle st req)) = sessions st).
  { unfold handle, create_player, Player_create.
    rewrite Hroute, Hu, Hpw, (nonempty_of u Hune), (nonempty_of pw Hpwne), Hexists.
    cbn [bcrypt_hash await].
    destruct (validate_email (Body.email (body req)));
      [destruct (varchar 100 u && varchar_null 255 (Body.email (body req)))|];
      repeat split. }
  destruct Hres as (Hresp & Hrows & Hsess). rewrite Hresp, Hrows, Hsess.
  split; [reflexivity|]. split; [reflexivity|]. split; [reflexivity|].
  split; [reflexivity|].
  intros Hunique. apply unique_username_count; assumption.
Qed.

End CreatePlayer.

(** C4 fails as it is stated: the second [/create-player] for [alice] is
    not answered with a Conflict; its response is the one that the route
    gives to a creation that fails for another reason (here an [email] that
    the validator refuses), status 500. *)
Lemma duplicate_username_is_not_a_conflict :
  let second := Demo.create "alice" "other" in
  let invalid :=
    mkRequest None POST_create_player
      (Body.mk (Some "carol") (Some "pw") (Some "nowhere") None None None None None
               None None None) "" in
  spec_error_kind (snd (@handle Demo.libraries Demo.one_player second)) = Some Internal
  /\ spec_error_kind (snd (@handle Demo.libraries Demo.one_player second))
     <> Some Conflict
  /\ status (snd (@handle Demo.libraries Demo.one_player second)) = 500
  /\ snd (@handle Demo.libraries Demo.one_player second)
     = snd (@handle Demo.libraries Demo.one_player invalid).
Proof. vm_compute. repeat split. discriminate. Qed.

Lemma duplicate_username_rejected_witness :
  let second := Demo.create "alice" "other" in
  snd (@handle Demo.libraries Demo.one_player second)
  = respond 500 (error "Failed to create player")
  /\ username_count "alice"
       (players (fst (@handle Demo.libraries Demo.one_player second))) = 1%nat.
Proof.
  intros second.
  destruct (@duplicate_username_rejected Demo.libraries Demo.one_player second
              "alice" "other") as (Hresp & _ & _ & _ & Hcount).
  - reflexivity.
  - reflexivity.
  - discriminate.
  - reflexivity.
  - discriminate.
  - reflexivity.
  - split; [exact Hresp|]. apply Hcount.
    apply List.NoDup_cons; [intros [] | apply List.NoDup_nil].
Defined.

(** ** The profile route *)

Section UpdateProfile.

Context `{Libraries}.


End UpdateProfile.



(** ** The unique index is an invariant of the application *)

Section UniqueUsernames.

Context `{Libraries}.

(** What a request does to the usernames of the table: nothing, or one row
    with a new username is appended, or rows are deleted. *)
Lemma handle_usernames (st : state) (req : request) :
  map Player.username (players (fst (handle st req))) = map Player.username (players st)
  \/ (exists p, players (fst (handle st req)) = (players st ++ [p])%list
                /\ existsb (has_username (Player.username p)) (players st) = false
                /\ Player.username p <> "")
  \/ (exists keep, players (fst (handle st req)) = List.filter keep (players st)).
Proof.
  unfold handle.
  destruct (route req) eqn:Hroute;
    try (left; unfold get_players, get_player, reward, update_coins,
           update_progress, isAuthenticated, current_user, update_profile,
           upload_avatar, change_password, logout_others, await,
           query_update_coins, query_update_progress, Player_update_profile,
           Player_update_avatar, Player_update_password, Player_save;
         handler_cases; cbn [fst set_players players];
         try reflexivity;
         repeat match goal with
                | Hq : Resolved _ = Resolved _ |- _ => injection Hq as <-
                end;
         apply update_where_usernames; reflexivity).
  - (* /create-player *)
    unfold create_player, Player_create, await.
    handler_cases; cbn [fst set_players players]; try (left; reflexivity).
    right. left. eexists. split; [reflexivity|]. cbn [Player.username].
    split; [assumption|].
    match goal with
    | Hu : nonempty (Body.username _) = Some _ |- _ => apply nonempty_Some in Hu as [_ Hu]
    end.
    assumption.
  - (* /login *)
    left. unfold login, await.
    destruct (Player_findOne_username _ _) as [[player|]|]; [|reflexivity..].
    destruct (bcrypt_compare _ _) as [[|]|]; [|reflexivity..].
    pose proof (session_save_bound (cookie req)
                  (User.mk (Player.id player) (Player.username player)) st) as Hsave.
    destruct (session_save _ _ st) as [st' announced]. destruct Hsave as [_ Hrows].
    cbn [fst]. rewrite Hrows. reflexivity.
  - (* /api/delete-account *)
    unfold isAuthenticated, delete_account, Player_destroy.
    handler_cases; cbn [fst]; [|left; reflexivity..].
    right. right. eexists.
    destruct (cookie req); cbn [session_destroy set_players players]; reflexivity.
Qed.

Lemma unique_usernames_append (rows : list Player.t) (p : Player.t) :
  unique_usernames rows ->
  existsb (has_username (Player.username p)) rows = false ->
  unique_usernames (rows ++ [p])%list.
Proof.
  unfold unique_usernames. induction rows as [|r rows IH]; simpl; intros Hnd Hex.
  - apply List.NoDup_cons; [intros [] | apply List.NoDup_nil].
  - apply orb_false_iff in Hex as [Hr Hrows].
    apply List.NoDup_cons_iff in Hnd as [Hnotin Hnd].
    apply List.NoDup_cons.
    + rewrite map_app, in_app_iff. intros [Hin|[Heq|[]]]; [contradiction|].
      unfold has_username in Hr. apply String.eqb_neq in Hr. congruence.
    + apply IH; assumption.
Qed.

Lemma unique_usernames_filter (keep : Player.t -> bool) (rows : list Player.t) :
  unique_usernames rows -> unique_usernames (List.filter keep rows).
Proof.
  unfold unique_usernames. induction rows as [|r rows IH]; simpl; intros Hnd;
    [exact Hnd|].
  apply List.NoDup_cons_iff in Hnd as [Hnotin Hnd].
  destruct (keep r); [|apply IH, Hnd].
  simpl. apply List.NoDup_cons; [|apply IH, Hnd].
  intros Hin. apply Hnotin. apply in_map_iff in Hin as (x & Hx & Hin).
  apply filter_In in Hin as [Hin _]. apply in_map_iff. exists x. auto.
Qed.

(** Every request keeps the usernames of the table distinct. *)
Lemma handle_unique_usernames (st : state) (req : request) :
  unique_usernames (players st) -> unique_usernames (players (fst (handle st req))).
Proof.
  intros Hunique.
  destruct (handle_usernames st req) as [Hsame|[(p & -> & Hfresh & _)|(keep & ->)]].
  - unfold unique_usernames. rewrite Hsame. exact Hunique.
  - apply unique_usernames_append; assumption.
  - apply unique_usernames_filter, Hunique.
Qed.

Lemma run_unique_usernames (reqs : list request) (st : state) :
  unique_usernames (players st) -> unique_usernames (players (run st reqs)).
Proof.
  revert st. induction reqs as [|req reqs IH]; intros st Hunique; simpl;
    [exact Hunique|].
  apply IH, handle_unique_usernames, Hunique.
Qed.

(** From the empty table on, the usernames are distinct after any sequence
    of requests. *)
Corollary reachable_unique_usernames (reqs : list request) :
  unique_usernames (players (run init reqs)).
Proof. apply run_unique_usernames. apply List.NoDup_nil. Qed.

(** Every request keeps the usernames of the table non-empty. *)
Lemma handle_usernames_nonempty (st : state) (req : request) :
  usernames_nonempty (players st) ->
  usernames_nonempty (players (fst (handle st req))).
Proof.
  unfold usernames_nonempty. intros Hne.
  destruct (handle_usernames st req) as [Hsame|[(p & -> & _ & Hp)|(keep & ->)]].
  - rewrite Hsame. exact Hne.
  - rewrite map_app, in_app_iff. intros [Hin|[Heq|[]]]; [contradiction | congruence].
  - intros Hin. apply Hne. apply in_map_iff in Hin as (x & Hx & Hin).
    apply filter_In in Hin as [Hin _]. apply in_map_iff. exists x. auto.
Qed.

(** From the empty table on, no row has the empty username: a request by
    username that finds a row has passed the check of the username. *)
Corollary reachable_usernames_nonempty (reqs : list request) :
  usernames_nonempty (players (run init reqs)).
Proof.
  assert (Hrun : forall rs st, usernames_nonempty (players st) ->
                               usernames_nonempty (players (run st rs))).
  { induction rs as [|r rs IH]; intros st Hst; simpl; [exact Hst|].
    apply IH, handle_usernames_nonempty, Hst. }
  apply Hrun. intros [].
Qed.

End UniqueUsernames.

(** ** Required fields and lookups *)

Section Lookups.

Context `{Libraries}.

(** X1.  The four routes that check [username] ([/create-player],
    [/api/reward], [/update-coins], [/update-progress]) answer 400 with the
    text of the route, and leave the state as it was, when the username is
    absent or the empty string; [/create-player] does so as well when the
    password is absent or empty. *)
Theorem missing_field_rejected (st : state) (req : request) :
  requires_username (route req) = true ->
  nonempty (Body.username (body req)) = None
  \/ (route req = POST_create_player
      /\ nonempty (Body.password (body req)) = None) ->
  handle st req = (st, respond 400 (error (missing_field_text (route req))))
  /\ spec_error_kind (snd (handle st req)) = Some MissingField.
Proof.
  intros Hroute Hmissing.
  assert (Hres : handle st req
                 = (st, respond 400 (error (missing_field_text (route req))))).
  { unfold handle, create_player, reward, update_coins, update_progress.
    destruct (route req); try discriminate Hroute;
      destruct Hmissing as [Hu|[Hr Hp]]; try discriminate Hr;
      try (rewrite Hu; reflexivity).
    rewrite Hp. destruct (nonempty (Body.username (body req))); reflexivity. }
  rewrite Hres. split; [reflexivity|].
  destruct (route req); try discriminate Hroute; reflexivity.
Qed.

(** X2.  [/api/reward] with a non-empty username has four outcomes and no
    other: 404 exactly when no row has the username; 400 "Not enough coins"
    exactly when the row exists and its coins plus the delta are negative;
    200 exactly when the row exists, the sum is not negative and the new
    points and coins are INTEGERs of the table; 500 exactly when the row
    exists, the sum is not negative and one of the two is not. *)
Theorem reward_outcomes (st : state) (req : request) (u : string) :
  route req = POST_api_reward ->
  Body.username (body req) = Some u ->
  u <> "" ->
  (status (snd (handle st req)) = 404
   <-> find (has_username u) (players st) = None)
  /\ (status (snd (handle st req)) = 400
      <-> exists player,
            find (has_username u) (players st) = Some player
            /\ Player.coins player + default 0 (Body.coins (body req)) < 0)
  /\ (status (snd (handle st req)) = 200
      <-> exists player,
            find (has_username u) (players st) = Some player
            /\ 0 <= Player.coins player + default 0 (Body.coins (body req))
            /\ int4 (Player.points player + default 0 (Body.points (body req)))
                && int4 (Player.coins player + default 0 (Body.coins (body req)))
               = true)
  /\ (status (snd (handle st req)) = 500
      <-> exists player,
            find (has_username u) (players st) = Some player
            /\ 0 <= Player.coins player + default 0 (Body.coins (body req))
            /\ int4 (Player.points player + default 0 (Body.points (body req)))
                && int4 (Player.coins player + default 0 (Body.coins (body req)))
               = false).
Proof.
  intros Hroute Hu Hne. unfold handle, reward.
  rewrite Hroute, Hu, (nonempty_of u Hne). cbn [Player_findOne_username await].
  destruct (find (has_username u) (players st)) as [player|] eqn:Hfind.
  - rewrite !js_or_zero_default.
    destruct (Z.ltb_spec (Player.coins player + default 0 (Body.coins (body req))) 0)
      as [Hneg|Hpos].
    + cbn [snd status respond].
      split; [split; discriminate|].
      split; [split; [intros _; exists player; auto | reflexivity]|].
      split; (split; [discriminate|]); intros (p & [= <-] & Hp & _); lia.
    + unfold Player_save.
      cbn [Player.points Player.coins Player.set_coins Player.set_points].
      destruct (int4 (Player.points player + default 0 (Body.points (body req)))
                && int4 (Player.coins player + default 0 (Body.coins (body req))))
        eqn:Hint; cbn [await snd status respond].
      * split; [split; discriminate|].
        split; [split; [discriminate | intros (p & [= <-] & Hp); lia]|].
        split; [split; [intros _; exists player; auto | reflexivity]|].
        split; [discriminate|]. intros (p & [= <-] & _ & Hp). congruence.
      * split; [split; discriminate|].
        split; [split; [discriminate | intros (p & [= <-] & Hp); lia]|].
        split; [split; [discriminate | intros (p & [= <-] & _ & Hp); congruence]|].
        split; [intros _; exists player; auto | reflexivity].
  - cbn [snd status respond].
    split; [split; reflexivity|].
    split; [split; [discriminate|intros (p & [=] & _)]|].
    split; (split; [discriminate|intros (p & [=] & _)]).
Qed.

(** X3.  [/get-players], [/get-posts] and [/players] are one route under
    three names: whatever the cookie and the body of the request, with or
    without a session, the answer is 200 with an array that holds one object
    per row of the table, in the order in which PostgreSQL returns the rows,
    and the object of a row carries the [username] and the [password]
    column of that row; the state is not changed. *)
Theorem list_routes_serve_every_row (st : state) (req : request) :
  lists_players (route req) = true ->
  fst (handle st req) = st
  /\ status (snd (handle st req)) = 200
  /\ exists items,
       payload (snd (handle st req)) = JArr items
       /\ Permutation items (map Player.toJSON (players st))
       /\ (forall r, In r (players st) ->
             exists members,
               In (JObj members) items
               /\ member "username" members = Some (JStr (Player.username r))
               /\ member "password" members = Some (JStr (Player.password r))).
Proof.
  intros Hroute.
  assert (Hres : handle st req
                 = (st, respond 200
                          (JArr (map Player.toJSON (Player_findAll (players st))))))
    by (unfold handle, get_players; destruct (route req); try discriminate;
        reflexivity).
  rewrite Hres. cbn [fst snd status payload respond].
  split; [reflexivity|]. split; [reflexivity|].
  exists (map Player.toJSON (Player_findAll (players st))).
  split; [reflexivity|]. split.
  - apply Permutation_map. unfold Player_findAll. apply scan_order_all.
  - intros r Hr. exists (Player.dataValues r). split; [|split; reflexivity].
    apply (in_map Player.toJSON). unfold Player_findAll.
    apply (Permutation_in r (Permutation_sym (scan_order_all (players st)))), Hr.
Qed.

(** X4.  [/api/player/:username] needs no session: it answers 200 with
    every attribute of the first row that has the username, the [password]
    column included, and 404 "Player not found" when no row has it; in both
    cases the state is not changed. *)
Theorem get_player_by_username (st : state) (req : request) (u : string) :
  route req = GET_api_player u ->
  fst (handle st req) = st
  /\ (forall player, find (has_username u) (players st) = Some player ->
        snd (handle st req) = respond 200 (Player.toJSON player)
        /\ member "password" (Player.dataValues player)
           = Some (JStr (Player.password player)))
  /\ (find (has_username u) (players st) = None ->
      snd (handle st req) = respond 404 (error "Player not found")).
Proof.
  intros Hroute. unfold handle, get_player. rewrite Hroute.
  cbn [Player_findOne_username await].
  destruct (find (has_username u) (players st)) as [player|]; cbn [fst snd].
  - split; [reflexivity|]. split; [|discriminate].
    intros p [= <-]. split; reflexivity.
  - split; [reflexivity|]. split; [discriminate | reflexivity].
Qed.

(** X5.  [/api/current-user] under a bound session answers with the eight
    attributes [id], [username], [email], [display_name], [theme], [avatar],
    [points], [coins] of the row whose [id] the session holds, and with
    nothing else of that row; when that row is gone the answer is 404 "User
    not found".  The state is not changed. *)
Theorem current_user_profile (st : state) (req : request) (user : User.t) :
  route req = GET_api_current_user ->
  req_session_user st (cookie req) = Some user ->
  fst (handle st req) = st
  /\ (forall player, Player_findOne_id (User.id user) (players st) = Some player ->
        snd (handle st req)
        = respond 200
            (JObj [("id", JNum (Player.id player));
                   ("username", JStr (Player.username player));
                   ("email", json_of_string (Player.email player));
                   ("display_name", json_of_string (Player.display_name player));
                   ("theme", JStr (Player.theme player));
                   ("avatar", json_of_string (Player.avatar player));
                   ("points", JNum (Player.points player));
                   ("coins", JNum (Player.coins player))]))
  /\ (Player_findOne_id (User.id user) (players st) = None ->
      snd (handle st req) = respond 404 (error "User not found")).
Proof.
  intros Hroute Huser. unfold handle, isAuthenticated, current_user.
  rewrite Hroute, Huser.
  destruct (Player_findOne_id (User.id user) (players st)) as [player|]; cbn [fst snd].
  - split; [reflexivity|]. split; [|discriminate].
    intros p [= <-]. reflexivity.
  - split; [reflexivity|]. split; [discriminate | reflexivity].
Qed.

End Lookups.

Lemma missing_field_rejected_witness :
  @handle Demo.libraries Demo.one_player (Demo.amount "" (Some 1) (Some 1) POST_api_reward)
  = (Demo.one_player, respond 400 (error "Username is required"))
  /\ @handle Demo.libraries Demo.one_player (Demo.create "carol" "")
     = (Demo.one_player, respond 400 (error "Username and password are required")).
Proof.
  split.
  - apply (@missing_field_rejected Demo.libraries); [reflexivity | left; reflexivity].
  - apply (@missing_field_rejected Demo.libraries);
      [reflexivity | right; split; reflexivity].
Defined.

Lemma reward_outcomes_witness :
  status (snd (@handle Demo.libraries Demo.five_coins
                 (Demo.amount "bob" None (Some 1) POST_api_reward))) = 404
  /\ status (snd (@handle Demo.libraries Demo.five_coins
                    (Demo.amount "alice" None (Some (-6)) POST_api_reward))) = 400
  /\ status (snd (@handle Demo.libraries Demo.five_coins
                    (Demo.amount "alice" None (Some (-5)) POST_api_reward))) = 200
  /\ status (snd (@handle Demo.libraries Demo.five_coins
                    (Demo.amount "alice" None (Some 2147483643) POST_api_reward)))
     = 500.
Proof.
  split; [|split; [|split]].
  - apply (@reward_outcomes Demo.libraries Demo.five_coins _ "bob");
      [reflexivity | reflexivity | discriminate | reflexivity].
  - apply (@reward_outcomes Demo.libraries Demo.five_coins _ "alice");
      [reflexivity | reflexivity | discriminate |].
    eexists. split; [vm_compute; reflexivity | vm_compute; reflexivity].
  - apply (@reward_outcomes Demo.libraries Demo.five_coins _ "alice");
      [reflexivity | reflexivity | discriminate |].
    eexists. split; [vm_compute; reflexivity|].
    split; [vm_compute; discriminate | vm_compute; reflexivity].
  - apply (@reward_outcomes Demo.libraries Demo.five_coins _ "alice");
      [reflexivity | reflexivity | discriminate |].
    eexists. split; [vm_compute; reflexivity|].
    split; [vm_compute; discriminate | vm_compute; reflexivity].
Defined.

Lemma list_routes_serve_every_row_witness :
  exists items members,
    payload (snd (@handle Demo.libraries Demo.two_players
                    (Demo.with_cookie None GET_get_posts))) = JArr items
    /\ In (JObj members) items
    /\ member "username" members = Some (JStr "bob")
    /\ member "password" members = Some (JStr "s4lt$hunter2").
Proof.
  destruct (@list_routes_serve_every_row Demo.libraries Demo.two_players
              (Demo.with_cookie None GET_get_posts) eq_refl)
    as (_ & _ & items & Hitems & _ & Hrows).
  destruct (Hrows (Player.mk 2 "bob" None None "system" None 0 0 false false false
                             false false None "s4lt$hunter2"))
    as (members & Hin & Hname & Hpw); [right; left; reflexivity|].
  exists items, members. split; [exact Hitems|]. split; [exact Hin|].
  split; [exact Hname | exact Hpw].
Defined.

Lemma get_player_by_username_witness :
  let req := Demo.with_cookie None (GET_api_player "alice") in
  fst (@handle Demo.libraries Demo.one_player req) = Demo.one_player
  /\ status (snd (@handle Demo.libraries Demo.one_player req)) = 200
  /\ has_key "password" (payload (snd (@handle Demo.libraries Demo.one_player req)))
     = true.
Proof.
  intros req.
  destruct (@get_player_by_username Demo.libraries Demo.one_player req "alice" eq_refl)
    as (Hst & Hfound & _).
  split; [exact Hst|].
  destruct (Hfound (Player.mk 1 "alice" None None "system" None 0 0 false false false
                              false false None "s4lt$secret") eq_refl)
    as [Hresp _].
  rewrite Hresp. split; reflexivity.
Defined.

Lemma current_user_profile_witness :
  let req := Demo.with_cookie (Some 0%nat) GET_api_current_user in
  snd (@handle Demo.libraries Demo.logged_in req)
  = respond 200
      (JObj [("id", JNum 1); ("username", JStr "alice"); ("email", JNull);
             ("display_name", JNull); ("theme", JStr "system"); ("avatar", JNull);
             ("points", JNum 0); ("coins", JNum 0)]).
Proof.
  intros req.
  destruct (@current_user_profile Demo.libraries Demo.logged_in req
              (User.mk 1 "alice") eq_refl) as (_ & Hfound & _).
  - vm_compute. reflexivity.
  - apply (Hfound (Player.mk 1 "alice" None None "system" None 0 0 false false false
                             false false None "s4lt$secret")).
    reflexivity.
Defined.

(** ** Accounts: creation, password, avatar, deletion, progress *)

Lemma find_app_one (key : Player.t -> bool) (rows : list Player.t) (p : Player.t) :
  find key (rows ++ [p])
  = match find key rows with
    | Some r => Some r
    | None => if key p then Some p else None
    end.
Proof.
  induction rows as [|r rows IH]; simpl; [reflexivity|].
  destruct (key r); [reflexivity | exact IH].
Qed.

(** Under the unique index the lookup by the username of a row finds that
    row. *)
Lemma find_unique_username (rows : list Player.t) (p : Player.t) :
  unique_usernames rows -> In p rows ->
  find (has_username (Player.username p)) rows = Some p.
Proof.
  unfold unique_usernames. induction rows as [|r rows IH]; simpl; [intros _ []|].
  intros Hnd Hin. apply List.NoDup_cons_iff in Hnd as [Hnotin Hnd].
  destruct (has_username (Player.username p) r) eqn:Hr.
  - destruct Hin as [->|Hin]; [reflexivity|].
    exfalso. apply Hnotin. apply has_username_true in Hr. rewrite Hr.
    apply in_map, Hin.
  - destruct Hin as [->|Hin]; [|apply IH; assumption].
    unfold has_username in Hr. rewrite String.eqb_refl in Hr. discriminate.
Qed.

(** A lookup by [id] after [player.destroy()] finds nothing under the [id]
    of the instance, and what it found before under any other [id]. *)
Lemma find_id_destroy (player : Player.t) (i : Z) (rows : list Player.t) :
  Player_findOne_id i (Player_destroy player rows)
  = if Z.eqb i (Player.id player) then None else Player_findOne_id i rows.
Proof.
  unfold Player_findOne_id, Player_destroy, has_id.
  induction rows as [|r rows IH]; simpl; [destruct (Z.eqb i _); reflexivity|].
  destruct (Z.eqb_spec (Player.id r) (Player.id player)) as [Heq|Hne]; simpl.
  - rewrite IH. destruct (Z.eqb_spec i (Player.id player)) as [->|Hi]; [reflexivity|].
    destruct (Z.eqb_spec (Player.id r) i); [congruence | reflexivity].
  - destruct (Z.eqb_spec (Player.id r) i) as [<-|Hri].
    + destruct (Z.eqb_spec (Player.id r) (Player.id player)); [contradiction|reflexivity].
    + exact IH.
Qed.

Section Accounts.

Context `{Libraries}.

(** The outcome of a login for a username that a row carries, when the
    password is given: 200 exactly when the password verifies against the
    hash of that row. *)
Lemma login_status (st : state) (req : request) (u pw : string) (player : Player.t) :
  route req = POST_login ->
  Body.username (body req) = Some u ->
  Body.password (body req) = Some pw ->
  find (has_username u) (players st) = Some player ->
  status (snd (handle st req)) = 200 <-> verify pw (Player.password player) = true.
Proof.
  intros Hroute Hu Hpw Hfind. unfold handle, login.
  rewrite Hroute, Hu. cbn [Player_findOne_username await]. rewrite Hfind, Hpw.
  cbn [bcrypt_compare await].
  destruct (verify pw (Player.password player)).
  - destruct (session_save _ _ st). split; reflexivity.
  - split; discriminate.
Qed.

(** A creation that is answered 200 has appended the row of its username
    and of the hash of its password. *)
Lemma create_player_success (st : state) (req : request) :
  route req = POST_create_player ->
  status (snd (handle st req)) = 200 ->
  exists u pw,
    Body.username (body req) = Some u /\ Body.password (body req) = Some pw
    /\ find (has_username u) (players st) = None
    /\ players (fst (handle st req))
       = (players st
          ++ [Player.mk (players_id_seq st) u (Body.email (body req)) None "system"
                        None 0 0 false false false false false None
                        (hash_with_salt (salt req) pw)])%list.
Proof.
  intros Hroute. unfold handle, create_player, Player_create. rewrite Hroute.
  destruct (nonempty (Body.username (body req))) as [u|] eqn:Hu; [|discriminate].
  destruct (nonempty (Body.password (body req))) as [pw|] eqn:Hpw; [|discriminate].
  cbn [bcrypt_hash await].
  destruct (validate_email (Body.email (body req))); [|discriminate].
  destruct (varchar 100 u && varchar_null 255 (Body.email (body req)));
    [|discriminate].
  cbn [negb].
  destruct (existsb (has_username u) (players st)) eqn:Hex; [discriminate|].
  intros _. exists u, pw. apply nonempty_Some in Hu as [Hu _].
  apply nonempty_Some in Hpw as [Hpw _].
  split; [exact Hu|]. split; [exact Hpw|]. split; [|reflexivity].
  destruct (find (has_username u) (players st)) as [p|] eqn:Hfind; [|reflexivity].
  assert (Htrue : existsb (has_username u) (players st) = true)
    by (apply existsb_find; exists p; exact Hfind).
  congruence.
Qed.


(** X7.  After a [/create-player] that was answered 200, for a username of
    at most 100 characters, a login with the username of the creation and
    any password succeeds exactly when that password verifies against the
    hash that the creation stored, that is the hash of the password of the
    creation under the salt of the creation. *)
Theorem create_then_login (st : state) (req lreq : request) (u pw pw' : string) :
  route req = POST_create_player ->
  status (snd (handle st req)) = 200 ->
  Body.username (body req) = Some u ->
  varchar 100 u = true ->
  Body.password (body req) = Some pw ->
  route lreq = POST_login ->
  Body.username (body lreq) = Some u ->
  Body.password (body lreq) = Some pw' ->
  status (snd (handle (fst (handle st req)) lreq)) = 200
  <-> verify pw' (hash_with_salt (salt req) pw) = true.
Proof.
  intros Hroute Hok Hu _ Hpw Hlroute Hlu Hlpw.
  destruct (create_player_success st req Hroute Hok)
    as (u0 & pw0 & Hu0 & Hpw0 & Hfree & Hrows).
  rewrite Hu in Hu0. injection Hu0 as <-. rewrite Hpw in Hpw0. injection Hpw0 as <-.
  assert (Hfind : find (has_username u) (players (fst (handle st req)))
                  = Some (Player.mk (players_id_seq st) u (Body.email (body req)) None
                            "system" None 0 0 false false false false false None
                            (hash_with_salt (salt req) pw))).
  { rewrite Hrows, find_app_one, Hfree. unfold has_username. cbn [Player.username].
    rewrite String.eqb_refl. reflexivity. }
  apply (login_status _ lreq u pw' _ Hlroute Hlu Hlpw Hfind).
Qed.

(** X8.  [/api/change-password] under a bound session whose row exists:
    when the current password given does not verify against the stored hash
    the answer is 401 "Current password is incorrect" and nothing changes;
    when it verifies and a new password is given, the [password] column of
    the row becomes the hash of the new password under the salt of the
    request, the other columns and the sessions are kept, and, usernames
    being unique, a later login under the username of the row succeeds
    exactly when its password verifies against that new hash. *)
Theorem change_password_replaces_hash (st : state) (req : request) (user : User.t)
    (player : Player.t) (current : string) :
  route req = POST_api_change_password ->
  req_session_user st (cookie req) = Some user ->
  Player_findOne_id (User.id user) (players st) = Some player ->
  Body.currentPassword (body req) = Some current ->
  (verify current (Player.password player) = false ->
   handle st req = (st, respond 401 (error "Current password is incorrect")))
  /\ (forall new,
        verify current (Player.password player) = true ->
        Body.newPassword (body req) = Some new ->
        let hashed := hash_with_salt (salt req) new in
        snd (handle st req)
        = respond 200 (JObj [("success", JBool true);
                             ("message", JStr "Password changed successfully")])
        /\ sessions (fst (handle st req)) = sessions st
        /\ Player_findOne_id (User.id user) (players (fst (handle st req)))
           = Some (Player.set_password hashed player)
        /\ (forall lreq pw',
              unique_usernames (players st) ->
              route lreq = POST_login ->
              Body.username (body lreq) = Some (Player.username player) ->
              Body.password (body lreq) = Some pw' ->
              status (snd (handle (fst (handle st req)) lreq)) = 200
              <-> verify pw' hashed = true)).
Proof.
  intros Hroute Huser Hfind Hcurrent. split.
  - intros Hbad. unfold handle, isAuthenticated, change_password.
    rewrite Hroute, Huser, Hfind, Hcurrent. cbn [bcrypt_compare await].
    rewrite Hbad. reflexivity.
  - intros new Hok Hnew hashed.
    assert (Hres : handle st req
                   = (set_players (Player_update_password player hashed (players st)) st,
                      respond 200 (JObj [("success", JBool true);
                                         ("message",
                                          JStr "Password changed successfully")]))).
    { unfold handle, isAuthenticated, change_password.
      rewrite Hroute, Huser, Hfind, Hcurrent. cbn [bcrypt_compare await].
      rewrite Hok, Hnew. reflexivity. }
    rewrite Hres. cbn [fst snd set_players players sessions].
    assert (Hid : has_id (Player.id player) player = true)
      by (apply has_id_true; reflexivity).
    split; [reflexivity|]. split; [reflexivity|]. split.
    + unfold Player_findOne_id, Player_update_password in *.
      rewrite (find_update_where _ _ (has_id (User.id user)) _ player);
        [|reflexivity|exact Hfind].
      rewrite Hid. reflexivity.
    + intros lreq pw' Hunique Hlroute Hlu Hlpw.
      apply (login_status _ lreq (Player.username player) pw'
               (Player.set_password hashed player) Hlroute Hlu Hlpw).
      cbn [players set_players]. unfold Player_update_password.
      rewrite (find_update_where _ _ (has_username (Player.username player)) _ player);
        [rewrite Hid; reflexivity | reflexivity |].
      apply find_unique_username; [exact Hunique|].
      apply (find_some_in _ _ _ Hfind).
Qed.


(** X10.  [/api/delete-account] under a bound session whose row exists
    answers 200, removes every row with the [id] of the session and the
    session of the request, and nothing else: the rows with another [id]
    and the other sessions are kept.  Afterwards no row has the username of
    the deleted row (usernames being unique), and a request for the current
    user under another session of the same player passes the gate and is
    answered 404 "User not found". *)
Theorem delete_account_removes (st : state) (req : request) (user : User.t)
    (player : Player.t) :
  route req = POST_api_delete_account ->
  req_session_user st (cookie req) = Some user ->
  Player_findOne_id (User.id user) (players st) = Some player ->
  snd (handle st req)
  = respond 200 (JObj [("success", JBool true);
                       ("message", JStr "Account deleted successfully")])
  /\ Player_findOne_id (User.id user) (players (fst (handle st req))) = None
  /\ req_session_user (fst (handle st req)) (cookie req) = None
  /\ (forall i, i <> User.id user ->
        Player_findOne_id i (players (fst (handle st req)))
        = Player_findOne_id i (players st))
  /\ (forall sid, Some sid <> cookie req ->
        sessions (fst (handle st req)) !! sid = sessions st !! sid)
  /\ (unique_usernames (players st) ->
      find (has_username (Player.username player)) (players (fst (handle st req)))
      = None)
  /\ (forall other,
        route other = GET_api_current_user ->
        cookie other <> cookie req ->
        (exists user', req_session_user st (cookie other) = Some user'
                       /\ User.id user' = User.id user) ->
        snd (handle (fst (handle st req)) other)
        = respond 404 (error "User not found")).
Proof.
  intros Hroute Huser Hfind.
  assert (Hpid : Player.id player = User.id user).
  { apply find_some_in in Hfind as [_ Hid]. apply has_id_true, Hid. }
  assert (Hres : handle st req
                 = (session_destroy (cookie req)
                      (set_players (Player_destroy player (players st)) st),
                    respond 200 (JObj [("success", JBool true);
                                       ("message", JStr "Account deleted successfully")]))).
  { unfold handle, isAuthenticated, delete_account.
    rewrite Hroute, Huser, Hfind. reflexivity. }
  rewrite Hres. cbn [fst snd].
  assert (Hrows : players (session_destroy (cookie req)
                     (set_players (Player_destroy player (players st)) st))
                  = Player_destroy player (players st))
    by (destruct (cookie req); reflexivity).
  assert (Hgone : forall i, Player_findOne_id i (Player_destroy player (players st))
                            = if Z.eqb i (User.id user) then None
                              else Player_findOne_id i (players st))
    by (intros i; rewrite find_id_destroy, Hpid; reflexivity).
  assert (Hsess : forall sid, Some sid <> cookie req ->
            sessions (session_destroy (cookie req)
                        (set_players (Player_destroy player (players st)) st)) !! sid
            = sessions st !! sid).
  { intros sid Hsid. destruct (cookie req) as [t|]; [|reflexivity].
    cbn [session_destroy sessions set_players].
    apply lookup_delete_ne. congruence. }
  rewrite Hrows. split; [reflexivity|]. split; [|split; [|split; [|split; [|split]]]].
  - rewrite Hgone, Z.eqb_refl. reflexivity.
  - destruct (cookie req) as [t|]; [|reflexivity].
    cbn [req_session_user session_destroy sessions]. apply lookup_delete_eq.
  - intros i Hi. rewrite Hgone. destruct (Z.eqb_spec i (User.id user)); [contradiction|].
    reflexivity.
  - exact Hsess.
  - intros Hunique.
    destruct (find (has_username (Player.username player))
                (Player_destroy player (players st))) as [r|] eqn:Hr; [|reflexivity].
    exfalso. apply find_some_in in Hr as [Hin Hname].
    unfold Player_destroy in Hin. apply filter_In in Hin as [Hin Hkeep].
    apply has_username_true in Hname.
    pose proof (find_unique_username _ r Hunique Hin) as Hfr.
    pose proof (find_unique_username _ player Hunique (proj1 (find_some_in _ _ _ Hfind)))
      as Hfp.
    rewrite Hname, Hfp in Hfr. injection Hfr as <-.
    unfold has_id in Hkeep. rewrite Z.eqb_refl in Hkeep. discriminate.
  - intros other Horoute Hcookie (user' & Huser' & Hid').
    unfold handle, isAuthenticated, current_user. rewrite Horoute.
    assert (Hbound : req_session_user
                       (session_destroy (cookie req)
                          (set_players (Player_destroy player (players st)) st))
                       (cookie other) = Some user').
    { destruct (cookie other) as [sid|]; [|discriminate Huser'].
      cbn [req_session_user] in *. rewrite Hsess; [exact Huser' | congruence]. }
    rewrite Hbound, Hrows, Hgone, Hid', Z.eqb_refl. reflexivity.
Qed.


End Accounts.


(** The password of the creation logs in; another one does not. *)
Lemma create_then_login_witness :
  status (snd (@handle Demo.libraries
                 (fst (@handle Demo.libraries init (Demo.create "alice" "secret")))
                 (Demo.log_in None "alice" "secret"))) = 200
  /\ status (snd (@handle Demo.libraries
                    (fst (@handle Demo.libraries init (Demo.create "alice" "secret")))
                    (Demo.log_in None "alice" "Secret"))) <> 200.
Proof.
  assert (Hcreated : status (snd (@handle Demo.libraries init
                                    (Demo.create "alice" "secret"))) = 200)
    by (vm_compute; reflexivity).
  split.
  - apply (@create_then_login Demo.libraries init (Demo.create "alice" "secret")
             (Demo.log_in None "alice" "secret") "alice" "secret" "secret"
             eq_refl Hcreated eq_refl eq_refl eq_refl eq_refl eq_refl eq_refl).
    vm_compute. reflexivity.
  - assert (Hiff := @create_then_login Demo.libraries init
                      (Demo.create "alice" "secret")
                      (Demo.log_in None "alice" "Secret") "alice" "secret" "Secret"
                      eq_refl Hcreated eq_refl eq_refl eq_refl eq_refl eq_refl eq_refl).
    intros Hok. apply Hiff in Hok. vm_compute in Hok. discriminate Hok.
Defined.

(** [alice] changes her password under session 0: the new one logs in, the
    old one no longer does, and a wrong current password changes nothing. *)
Lemma change_password_replaces_hash_witness :
  let req := Demo.change (Some 0%nat) "secret" "n3w" in
  let after := fst (@handle Demo.libraries Demo.logged_in req) in
  status (snd (@handle Demo.libraries after (Demo.log_in None "alice" "n3w"))) = 200
  /\ status (snd (@handle Demo.libraries after (Demo.log_in None "alice" "secret")))
     <> 200
  /\ @handle Demo.libraries Demo.logged_in (Demo.change (Some 0%nat) "guess" "n3w")
     = (Demo.logged_in, respond 401 (error "Current password is incorrect")).
Proof.
  intros req after.
  assert (Hunique : unique_usernames (players Demo.logged_in))
    by (apply List.NoDup_cons; [intros [] | apply List.NoDup_nil]).
  destruct (@change_password_replaces_hash Demo.libraries Demo.logged_in req
              (User.mk 1 "alice")
              (Player.mk 1 "alice" None None "system" None 0 0 false false false
                         false false None "s4lt$secret") "secret")
    as [_ Hgood]; [reflexivity | vm_compute; reflexivity | vm_compute; reflexivity
                  | reflexivity |].
  destruct (Hgood "n3w") as (_ & _ & _ & Hlogin);
    [vm_compute; reflexivity | reflexivity |].
  split; [|split].
  - apply (Hlogin (Demo.log_in None "alice" "n3w") "n3w" Hunique);
      [reflexivity | reflexivity | reflexivity | vm_compute; reflexivity].
  - assert (Hiff := Hlogin (Demo.log_in None "alice" "secret") "secret" Hunique
                      eq_refl eq_refl eq_refl).
    intros Hok. apply Hiff in Hok. vm_compute in Hok. discriminate Hok.
  - apply (@change_password_replaces_hash Demo.libraries Demo.logged_in
             (Demo.change (Some 0%nat) "guess" "n3w") (User.mk 1 "alice")
             (Player.mk 1 "alice" None None "system" None 0 0 false false false
                        false false None "s4lt$secret") "guess");
      [reflexivity | vm_compute; reflexivity | vm_compute; reflexivity
      | reflexivity | vm_compute; reflexivity].
Defined.


(** [alice] has sessions 0 and 1 and deletes her account under session 0:
    session 1 is still bound, and its request for the current user is
    answered 404. *)
Lemma delete_account_removes_witness :
  let req := Demo.with_cookie (Some 0%nat) POST_api_delete_account in
  let after := fst (@handle Demo.libraries Demo.two_sessions req) in
  players after = []
  /\ sessions after !! 1%nat = Some (User.mk 1 "alice")
  /\ snd (@handle Demo.libraries after (Demo.with_cookie (Some 1%nat) GET_api_current_user))
     = respond 404 (error "User not found").
Proof.
  intros req after.
  destruct (@delete_account_removes Demo.libraries Demo.two_sessions req
              (User.mk 1 "alice")
              (Player.mk 1 "alice" None None "system" None 0 0 false false false
                         false false None "s4lt$secret"))
    as (_ & _ & _ & _ & Hsess & _ & Hother);
    [reflexivity | vm_compute; reflexivity | vm_compute; reflexivity|].
  split; [vm_compute; reflexivity|]. split.
  - unfold after. rewrite (Hsess 1%nat); [vm_compute; reflexivity | discriminate].
  - apply Hother; [reflexivity | discriminate |].
    exists (User.mk 1 "alice"). split; [vm_compute; reflexivity | reflexivity].
Defined.


(** ** What a request does to the table *)

(** The attributes that an assignment does not name keep their values. *)
Ltac attribute_frame :=
  let r := fresh "r" in
  let k := fresh "k" in
  let Hk := fresh "Hk" in
  intros r k Hk; unfold Player.dataValues; cbn -[String.eqb];
  repeat match goal with
         | |- context [String.eqb ?a k] =>
             destruct (String.eqb_spec a k) as [<-|?];
             [try reflexivity; exfalso; apply Hk; cbn; tauto|]
         end;
  reflexivity.

Lemma NoDup_map_filter {A B : Type} (f : A -> B) (keep : A -> bool) (l : list A) :
  List.NoDup (map f l) -> List.NoDup (map f (List.filter keep l)).
Proof.
  induction l as [|a l IH]; simpl; intros Hnd; [exact Hnd|].
  apply List.NoDup_cons_iff in Hnd as [Hnotin Hnd].
  destruct (keep a); [|apply IH, Hnd].
  simpl. apply List.NoDup_cons; [|apply IH, Hnd].
  intros Hin. apply Hnotin. apply in_map_iff in Hin as (x & Hx & Hin).
  apply filter_In in Hin as [Hin _]. apply in_map_iff. exists x. auto.
Qed.

Lemma NoDup_map_injective {A B : Type} (f : A -> B) (l : list A) (a b : A) :
  List.NoDup (map f l) -> In a l -> In b l -> f a = f b -> a = b.
Proof.
  induction l as [|x l IH]; simpl; [intros _ []|].
  intros Hnd Ha Hb Hf. apply List.NoDup_cons_iff in Hnd as [Hnotin Hnd].
  destruct Ha as [->|Ha], Hb as [->|Hb].
  - reflexivity.
  - exfalso. apply Hnotin. rewrite Hf. apply in_map, Hb.
  - exfalso. apply Hnotin. rewrite <- Hf. apply in_map, Ha.
  - apply IH; assumption.
Qed.

Lemma update_where_ids (cond : Player.t -> bool) (assign : Player.t -> Player.t)
    (rows : list Player.t) :
  (forall r, Player.id (assign r) = Player.id r) ->
  map Player.id (update_where cond assign rows) = map Player.id rows.
Proof.
  intros Hid. unfold update_where. rewrite map_map. apply map_ext.
  intros r. destruct (cond r); [apply Hid | reflexivity].
Qed.

Section Table.

Context `{Libraries}.

(** The table after a request: the same rows; or one more row, with the
    [id] drawn from the sequence and no coins; or the rows left by a
    [destroy]; or the rows rewritten by an UPDATE that keeps the [id]s and
    assigns only the attributes of the route.  The sequence never goes
    back. *)
Lemma handle_rows (st : state) (req : request) :
  players_id_seq st <= players_id_seq (fst (handle st req))
  /\ (players (fst (handle st req)) = players st
      \/ (exists p, players (fst (handle st req)) = (players st ++ [p])%list
                    /\ Player.id p = players_id_seq st
                    /\ players_id_seq (fst (handle st req)) = players_id_seq st + 1
                    /\ Player.coins p = 0)
      \/ (exists player,
            players (fst (handle st req)) = Player_destroy player (players st))
      \/ (exists cond assign,
            players (fst (handle st req)) = update_where cond assign (players st)
            /\ (forall r, Player.id (assign r) = Player.id r)
            /\ (forall r k, ~ In k (written_attributes (route req)) ->
                  member k (Player.dataValues (assign r))
                  = member k (Player.dataValues r))
            /\ (sets_coins_directly (route req) = false ->
                forall r, 0 <= Player.coins r -> 0 <= Player.coins (assign r)))).
Proof.
  unfold handle.
  destruct (route req) eqn:Hroute;
    try (split; [|left];
         unfold get_players, get_player, isAuthenticated, current_user, logout_others,
           await;
         handler_cases; cbn [fst players players_id_seq]; (reflexivity || lia)).
  - (* /create-player *)
    unfold create_player, Player_create, await.
    handler_cases; cbn [fst set_players players players_id_seq];
      (split; [lia|]); try (left; reflexivity).
    right. left. eexists. split; [reflexivity|]. repeat split.
  - (* /login *)
    unfold login, await.
    destruct (Player_findOne_username _ _) as [[player|]|];
      [|split; [cbn; lia | left; reflexivity]..].
    destruct (bcrypt_compare _ _) as [[|]|];
      [|split; [cbn; lia | left; reflexivity]..].
    unfold session_save.
    destruct (cookie req) as [sid|]; [destruct (sessions st !! sid)|];
      (split; [cbn; lia | left; reflexivity]).
  - (* /api/update-profile *)
    unfold isAuthenticated, update_profile, Player_update_profile, await.
    handler_cases; cbn [fst set_players players players_id_seq];
      (split; [lia|]); try (left; reflexivity).
    right. right. right. do 2 eexists. split; [reflexivity|].
    split; [reflexivity|]. split; [attribute_frame | intros _ r Hr; exact Hr].
  - (* /api/upload-avatar *)
    unfold isAuthenticated, upload_avatar, Player_update_avatar.
    handler_cases; cbn [fst set_players players players_id_seq];
      (split; [lia|]); try (left; reflexivity).
    right. right. right. do 2 eexists. split; [reflexivity|].
    split; [reflexivity|]. split; [attribute_frame | intros _ r Hr; exact Hr].
  - (* /api/change-password *)
    unfold isAuthenticated, change_password, Player_update_password, await.
    handler_cases; cbn [fst set_players players players_id_seq];
      (split; [lia|]); try (left; reflexivity).
    right. right. right. do 2 eexists. split; [reflexivity|].
    split; [reflexivity|]. split; [attribute_frame | intros _ r Hr; exact Hr].
  - (* /api/delete-account *)
    unfold isAuthenticated, delete_account.
    handler_cases; cbn [fst]; try (split; [lia | left; reflexivity]).
    split; [destruct (cookie req); cbn; lia|].
    right. right. left. eexists. destruct (cookie req); reflexivity.
  - (* /api/reward *)
    unfold reward, Player_save, await.
    handler_cases; cbn [fst set_players players players_id_seq];
      (split; [lia|]); try (left; reflexivity).
    right. right. right. do 2 eexists. split; [reflexivity|].
    split; [reflexivity|]. split; [attribute_frame|].
    intros _ r _. cbn [Player.coins Player.set_coins Player.set_points].
    match goal with
    | Hlt : Z.ltb _ 0 = false |- _ => apply Z.ltb_ge in Hlt; exact Hlt
    end.
  - (* /update-coins *)
    unfold update_coins, query_update_coins, await.
    handler_cases; cbn [fst set_players players players_id_seq];
      (split; [lia|]); try (left; reflexivity).
    right. right. right. do 2 eexists. split; [reflexivity|].
    split; [reflexivity|]. split; [attribute_frame | discriminate].
  - (* /update-progress *)
    unfold update_progress, query_update_progress, await.
    handler_cases; cbn [fst set_players players players_id_seq];
      (split; [lia|]); left; reflexivity.
Qed.

End Table.

Section TableProperties.

Context `{Libraries}.

Lemma handle_ids_wf (st : state) (req : request) :
  ids_wf st -> ids_wf (fst (handle st req)).
Proof.
  intros [Hnd Hbound]. destruct (handle_rows st req) as [Hseq Hshape]. unfold ids_wf.
  destruct Hshape as [Hrows|[(p & Hrows & Hid & Hnext & _)|[(player & Hrows)
                     |(cond & assign & Hrows & Hkeep & _)]]]; rewrite Hrows.
  - split; [exact Hnd|]. intros r Hr. specialize (Hbound r Hr). lia.
  - split.
    + rewrite map_app. simpl.
      assert (Hfresh : ~ In (Player.id p) (map Player.id (players st))).
      { intros Hin. apply in_map_iff in Hin as (r & Hr & Hin).
        specialize (Hbound r Hin). lia. }
      clear Hbound Hrows. induction (map Player.id (players st)) as [|i ids IH]; simpl.
      * apply List.NoDup_cons; [intros [] | apply List.NoDup_nil].
      * apply List.NoDup_cons_iff in Hnd as [Hnotin Hnd].
        apply List.NoDup_cons.
        -- rewrite in_app_iff. intros [Hin|[Heq|[]]]; [contradiction|].
           apply Hfresh. left. congruence.
        -- apply IH; [exact Hnd|]. intros Hin. apply Hfresh. right. exact Hin.
    + intros r Hr. apply in_app_iff in Hr as [Hr|[<-|[]]]; [|lia].
      specialize (Hbound r Hr). lia.
  - split; [apply NoDup_map_filter, Hnd|].
    intros r Hr. apply filter_In in Hr as [Hr _]. specialize (Hbound r Hr). lia.
  - split; [rewrite update_where_ids by exact Hkeep; exact Hnd|].
    intros r' Hr'. apply update_where_selected in Hr' as [(r & Hr & _ & ->)|[Hin _]].
    + rewrite Hkeep. specialize (Hbound r Hr). lia.
    + specialize (Hbound r' Hin). lia.
Qed.

(** X12.  A route writes only the attributes that its statements assign:
    when the [id]s of the table are distinct and below the sequence, a row
    after the request and the row with the same [id] before it agree on
    every attribute outside [email], [display_name], [theme], [avatar] for
    [/api/update-profile], [avatar] for [/api/upload-avatar], [password] for
    [/api/change-password], [points] and [coins] for [/api/reward], [coins]
    for [/update-coins] and [/update-progress], and on every attribute for
    the other routes.  No route writes [id], [username], [progress] or a
    milestone flag. *)
Theorem routes_write_only_their_attributes (st : state) (req : request)
    (r r' : Player.t) (k : string) :
  ids_wf st ->
  In r (players st) ->
  In r' (players (fst (handle st req))) ->
  Player.id r' = Player.id r ->
  ~ In k (written_attributes (route req)) ->
  member k (Player.dataValues r') = member k (Player.dataValues r).
Proof.
  intros [Hnd Hbound] Hr Hr' Hid Hk.
  assert (Hsame : In r' (players st) -> r' = r)
    by (intros Hin; apply (NoDup_map_injective Player.id (players st)); assumption).
  destruct (handle_rows st req) as [_ Hshape].
  destruct Hshape as [Hrows|[(p & Hrows & Hp & _)|[(player & Hrows)
                     |(cond & assign & Hrows & Hkeep & Hframe & _)]]];
    rewrite Hrows in Hr'.
  - rewrite (Hsame Hr'). reflexivity.
  - apply in_app_iff in Hr' as [Hr'|[<-|[]]]; [rewrite (Hsame Hr'); reflexivity|].
    specialize (Hbound r Hr). lia.
  - apply filter_In in Hr' as [Hr' _]. rewrite (Hsame Hr'). reflexivity.
  - apply update_where_selected in Hr' as [(r0 & Hr0 & _ & ->)|[Hr' _]];
      [|rewrite (Hsame Hr'); reflexivity].
    rewrite Hkeep in Hid.
    rewrite (NoDup_map_injective Player.id (players st) r0 r Hnd Hr0 Hr Hid).
    apply Hframe, Hk.
Qed.

(** X13.  From the empty table on, after any sequence of requests, the
    [id]s of the rows are distinct and below the sequence, and the sequence
    has not gone back: an [id] is not given twice, also after its row was
    deleted. *)
Theorem reachable_ids_wf (reqs : list request) :
  ids_wf (run init reqs)
  /\ forall more, players_id_seq (run init reqs)
                  <= players_id_seq (run (run init reqs) more).
Proof.
  split.
  - assert (Hrun : forall rs st, ids_wf st -> ids_wf (run st rs)).
    { induction rs as [|r rs IH]; intros st Hst; simpl; [exact Hst|].
      apply IH, handle_ids_wf, Hst. }
    apply Hrun. split; [apply List.NoDup_nil | intros r []].
  - generalize (run init reqs). intros st more. revert st.
    induction more as [|r rs IH]; intros st; simpl; [lia|].
    specialize (IH (fst (handle st r))).
    pose proof (proj1 (handle_rows st r)). lia.
Qed.

(** X14.  Every route but [/update-coins] and [/update-progress] keeps the
    coins of the table non-negative: when no row has negative coins before
    the request, no row has negative coins after it. *)
Theorem coins_stay_nonnegative (st : state) (req : request) :
  sets_coins_directly (route req) = false ->
  coins_nonnegative (players st) ->
  coins_nonnegative (players (fst (handle st req))).
Proof.
  intros Hroute Hnonneg. destruct (handle_rows st req) as [_ Hshape].
  destruct Hshape as [Hrows|[(p & Hrows & _ & _ & Hp)|[(player & Hrows)
                     |(cond & assign & Hrows & _ & _ & Hcoins)]]];
    rewrite Hrows; intros r Hr.
  - apply Hnonneg, Hr.
  - apply in_app_iff in Hr as [Hr|[<-|[]]]; [apply Hnonneg, Hr | lia].
  - apply filter_In in Hr as [Hr _]. apply Hnonneg, Hr.
  - apply update_where_selected in Hr as [(r0 & Hr0 & _ & ->)|[Hr _]].
    + apply (Hcoins Hroute), Hnonneg, Hr0.
    + apply Hnonneg, Hr.
Qed.

End TableProperties.

(** [alice] is rewarded: her [password] and her [username] are what they
    were. *)
Lemma routes_write_only_their_attributes_witness :
  let req := Demo.amount "alice" (Some 4) (Some 2) POST_api_reward in
  let before :=
    Player.mk 1 "alice" None None "system" None 0 0 false false false
              false false None "s4lt$secret" in
  exists r',
    In r' (players (fst (@handle Demo.libraries Demo.one_player req)))
    /\ Player.points r' = 4
    /\ member "password" (Player.dataValues r')
       = member "password" (Player.dataValues before)
    /\ member "username" (Player.dataValues r')
       = member "username" (Player.dataValues before).
Proof.
  intros req before.
  assert (Hwf : ids_wf Demo.one_player).
  { split.
    - apply List.NoDup_cons; [intros [] | apply List.NoDup_nil].
    - intros r [<-|[]]. reflexivity. }
  assert (Hafter : In (Player.set_coins 2 (Player.set_points 4 before))
                      (players (fst (@handle Demo.libraries Demo.one_player req))))
    by (left; reflexivity).
  exists (Player.set_coins 2 (Player.set_points 4 before)).
  split; [exact Hafter|]. split; [reflexivity|]. split.
  - apply (@routes_write_only_their_attributes Demo.libraries Demo.one_player req
             before _ "password" Hwf); [left; reflexivity | exact Hafter | reflexivity |].
    cbn. intros [Heq|[Heq|[]]]; discriminate.
  - apply (@routes_write_only_their_attributes Demo.libraries Demo.one_player req
             before _ "username" Hwf); [left; reflexivity | exact Hafter | reflexivity |].
    cbn. intros [Heq|[Heq|[]]]; discriminate.
Defined.

(** A reward that takes the five coins of [alice] leaves her with none. *)
Lemma coins_stay_nonnegative_witness :
  let req := Demo.amount "alice" None (Some (-5)) POST_api_reward in
  coins_nonnegative (players (fst (@handle Demo.libraries Demo.five_coins req))).
Proof.
  intros req.
  apply (@coins_stay_nonnegative Demo.libraries Demo.five_coins req eq_refl).
  intros r [<-|[]]. vm_compute. discriminate.
Defined.

(** ** What the responses and the failures never do *)

Lemma toJSON_without_unlocked_levels (p : Player.t) :
  has_key "unlocked_levels" (Player.toJSON p) = false.
Proof.
  unfold Player.toJSON, Player.dataValues. cbn.
  rewrite !has_key_json_of_string. reflexivity.
Qed.

Lemma attributes_without_unlocked_levels (p : Player.t) :
  has_key "unlocked_levels"
    (Player.toJSON_attributes
       ["id"; "username"; "email"; "display_name"; "theme"; "avatar"; "points"; "coins"]
       p) = false.
Proof.
  unfold Player.toJSON_attributes, Player.dataValues. cbn.
  rewrite !has_key_json_of_string. reflexivity.
Qed.

(** What the end of a login does to the sessions of the other clients:
    nothing. *)
Lemma session_save_frame (c : option nat) (u : User.t) (st : state) (sid : nat) :
  Some sid <> match snd (session_save c u st) with Some s => Some s | None => c end ->
  sessions (fst (session_save c u st)) !! sid = sessions st !! sid.
Proof.
  unfold session_save.
  destruct c as [t|]; [destruct (sessions st !! t)|]; cbn [fst snd sessions];
    intros Hsid; apply lookup_insert_ne; congruence.
Qed.

Section Responses.

Context `{Libraries}.

(** X15.  No response has an [unlocked_levels] member, at any depth: the
    model has no such attribute, and no route gives back the levels that a
    client sends to [/update-progress]. *)
Theorem unlocked_levels_never_returned (st : state) (req : request) :
  has_key "unlocked_levels" (payload (snd (handle st req))) = false.
Proof.
  assert (Hlist : forall rows,
            existsb (has_key "unlocked_levels") (map Player.toJSON rows) = false).
  { induction rows as [|r rows IH]; [reflexivity|].
    cbn [map existsb]. rewrite toJSON_without_unlocked_levels. exact IH. }
  unfold handle.
  destruct (route req);
    unfold create_player, get_players, login, isAuthenticated, current_user, get_player,
      update_profile, upload_avatar, change_password, delete_account, logout_others,
      reward, update_coins, update_progress, await;
    handler_cases; cbn [snd payload respond];
    try reflexivity;
    try apply attributes_without_unlocked_levels;
    try (cbn [has_key]; apply Hlist);
    cbn -[Player.toJSON]; rewrite toJSON_without_unlocked_levels; reflexivity.
Qed.

(** X16.  A request changes at most the session of its own client: every
    session other than the one that the cookie of the client names after
    the response is bound as it was, or absent as it was. *)
Theorem other_sessions_untouched (st : state) (req : request) (sid : nat) :
  Some sid <> cookie_after req (snd (handle st req)) ->
  sessions (fst (handle st req)) !! sid = sessions st !! sid.
Proof.
  unfold cookie_after, handle.
  destruct (route req) eqn:Hroute;
    try (intros _;
         unfold create_player, get_players, get_player, reward, update_coins,
           update_progress, isAuthenticated, current_user, update_profile,
           upload_avatar, change_password, logout_others, Player_create, await;
         handler_cases; reflexivity).
  - (* /login *)
    unfold login, await.
    destruct (Player_findOne_username _ _) as [[player|]|]; [|reflexivity..].
    destruct (bcrypt_compare _ _) as [[|]|]; [|reflexivity..].
    pose proof (session_save_frame (cookie req)
                  (User.mk (Player.id player) (Player.username player)) st sid)
      as Hframe.
    destruct (session_save _ _ st) as [st' announced].
    cbn [fst snd set_cookie] in *. exact Hframe.
  - (* /api/delete-account *)
    unfold isAuthenticated, delete_account.
    destruct (req_session_user st (cookie req)); [|reflexivity].
    destruct (Player_findOne_id _ _); [|reflexivity].
    cbn [fst snd set_cookie respond]. intros Hsid.
    destruct (cookie req) as [own|]; [|reflexivity].
    cbn [session_destroy sessions set_players]. apply lookup_delete_ne. congruence.
Qed.

(** X17.  A request that is not answered 200 changes neither the table nor
    the sessions. *)
Theorem failure_changes_nothing (st : state) (req : request) :
  status (snd (handle st req)) <> 200 ->
  players (fst (handle st req)) = players st
  /\ sessions (fst (handle st req)) = sessions st
  /\ next_sid (fst (handle st req)) = next_sid st.
Proof.
  unfold handle.
  destruct (route req);
    unfold create_player, get_players, login, isAuthenticated, current_user, get_player,
      update_profile, upload_avatar, change_password, delete_account, logout_others,
      reward, update_coins, update_progress, Player_create, await;
    handler_cases; cbn [fst snd status respond];
    intros Hstatus; try (exfalso; apply Hstatus; reflexivity);
    repeat split.
Qed.

(** X18.  The statuses of the application are 200, 400, 401, 404 and 500. *)
Theorem response_statuses (st : state) (req : request) :
  In (status (snd (handle st req))) [200; 400; 401; 404; 500].
Proof.
  unfold handle.
  destruct (route req);
    unfold create_player, get_players, login, isAuthenticated, current_user, get_player,
      update_profile, upload_avatar, change_password, delete_account, logout_others,
      reward, update_coins, update_progress, await;
    handler_cases; cbn [snd status respond In]; tauto.
Qed.

End Responses.

(** A login under session 0 of [alice] leaves her session 1 as it was. *)
Lemma other_sessions_untouched_witness :
  sessions (fst (@handle Demo.libraries Demo.two_sessions
                   (Demo.log_in (Some 0%nat) "alice" "secret"))) !! 1%nat
  = sessions Demo.two_sessions !! 1%nat.
Proof.
  apply (@other_sessions_untouched Demo.libraries). vm_compute. discriminate.
Defined.

(** A login with a wrong password changes nothing. *)
Lemma failure_changes_nothing_witness :
  players (fst (@handle Demo.libraries Demo.logged_in (Demo.log_in None "alice" "guess")))
  = players Demo.logged_in
  /\ sessions (fst (@handle Demo.libraries Demo.logged_in
                      (Demo.log_in None "alice" "guess")))
     = sessions Demo.logged_in.
Proof.
  destruct (@failure_changes_nothing Demo.libraries Demo.logged_in
              (Demo.log_in None "alice" "guess")) as (Hrows & Hsessions & _).
  - vm_compute. discriminate.
  - split; [exact Hrows | exact Hsessions].
Defined.

(** ** Rewards in sequence *)

Section RewardSequence.

Context `{Libraries}.

(** The row that a reward leaves under the username. *)
Lemma reward_step (st : state) (req : request) (u : string) (player : Player.t) :
  route req = POST_api_reward ->
  Body.username (body req) = Some u ->
  u <> "" ->
  find (has_username u) (players st) = Some player ->
  0 <= Player.coins player + default 0 (Body.coins (body req)) ->
  int4 (Player.points player + default 0 (Body.points (body req))) = true ->
  int4 (Player.coins player + default 0 (Body.coins (body req))) = true ->
  find (has_username u) (players (fst (handle st req)))
  = Some (Player.set_coins (Player.coins player + default 0 (Body.coins (body req)))
            (Player.set_points
               (Player.points player + default 0 (Body.points (body req))) player)).
Proof.
  intros Hroute Hu Hne Hfind Hpos Hpoints Hcoins. unfold handle, reward.
  rewrite Hroute, Hu, (nonempty_of u Hne).
  cbn [Player_findOne_username await]. rewrite Hfind, !js_or_zero_default.
  destruct (Z.ltb_spec (Player.coins player + default 0 (Body.coins (body req))) 0);
    [lia|].
  unfold Player_save.
  cbn [Player.id Player.points Player.coins Player.set_coins Player.set_points].
  rewrite Hpoints, Hcoins. cbn [andb await fst set_players players].
  rewrite (find_update_where _ _ (has_username u) _ player); [|reflexivity|exact Hfind].
  assert (Hid : has_id (Player.id player) player = true)
    by (apply has_id_true; reflexivity).
  rewrite Hid. reflexivity.
Qed.

(** X19.  Two rewards for the same player, one after the other, leave the
    row that one reward of the two sums would leave, provided that after
    the first and after the second the coins are not negative and the
    points and the coins are INTEGERs of the table: the points are the old
    points plus both points deltas, the coins the old coins plus both coins
    deltas, and no other column has changed. *)
Theorem rewards_add_up (st : state) (first second : request) (u : string)
    (player : Player.t) :
  route first = POST_api_reward -> route second = POST_api_reward ->
  Body.username (body first) = Some u -> Body.username (body second) = Some u ->
  u <> "" ->
  find (has_username u) (players st) = Some player ->
  0 <= Player.coins player + default 0 (Body.coins (body first)) ->
  0 <= Player.coins player + default 0 (Body.coins (body first))
       + default 0 (Body.coins (body second)) ->
  int4 (Player.points player + default 0 (Body.points (body first))) = true ->
  int4 (Player.coins player + default 0 (Body.coins (body first))) = true ->
  int4 (Player.points player + default 0 (Body.points (body first))
        + default 0 (Body.points (body second))) = true ->
  int4 (Player.coins player + default 0 (Body.coins (body first))
        + default 0 (Body.coins (body second))) = true ->
  find (has_username u) (players (fst (handle (fst (handle st first)) second)))
  = Some (Player.set_coins
            (Player.coins player + default 0 (Body.coins (body first))
             + default 0 (Body.coins (body second)))
            (Player.set_points
               (Player.points player + default 0 (Body.points (body first))
                + default 0 (Body.points (body second)))
               player)).
Proof.
  intros Hr1 Hr2 Hu1 Hu2 Hne Hfind Hpos1 Hpos2 Hp1 Hc1 Hp2 Hc2.
  pose proof (reward_step st first u player Hr1 Hu1 Hne Hfind Hpos1 Hp1 Hc1) as Hone.
  rewrite (reward_step _ second u _ Hr2 Hu2 Hne Hone); [reflexivity|..];
    cbn [Player.points Player.coins Player.set_coins Player.set_points]; assumption.
Qed.

End RewardSequence.

(** Five coins, then minus five and plus two, one point each time: two
    coins and two points. *)
Lemma rewards_add_up_witness :
  let take := Demo.amount "alice" (Some 1) (Some (-5)) POST_api_reward in
  let give := Demo.amount "alice" (Some 1) (Some 2) POST_api_reward in
  exists player',
    find (has_username "alice")
      (players (fst (@handle Demo.libraries
                       (fst (@handle Demo.libraries Demo.five_coins take)) give)))
    = Some player'
    /\ Player.coins player' = 2 /\ Player.points player' = 2.
Proof.
  intros take give. eexists. split.
  - apply (@rewards_add_up Demo.libraries Demo.five_coins take give "alice"
             (Player.mk 1 "alice" None None "system" None 0 5 false false false
                        false false None "s4lt$secret"));
      try reflexivity; try discriminate.
  - split; reflexivity.
Defined.

(** ** The identifier of the session of a login *)

Section LoginSession.

Context `{Libraries}.

(** X20.  A login that succeeds under a cookie whose session the store
    holds keeps the identifier of that session: the session is bound to the
    player of the login, no new identifier is issued and none is announced.
    A login that succeeds without such a session is given the next
    identifier, which the response announces and which no session of the
    store had. *)
Theorem login_session_identifier (st : state) (req : request) :
  route req = POST_login ->
  status (snd (handle st req)) = 200 ->
  (forall sid, cookie req = Some sid -> is_Some (sessions st !! sid) ->
     set_cookie (snd (handle st req)) = None
     /\ next_sid (fst (handle st req)) = next_sid st
     /\ is_Some (sessions (fst (handle st req)) !! sid))
  /\ (req_session_user st (cookie req) = None ->
      set_cookie (snd (handle st req)) = Some (next_sid st)
      /\ next_sid (fst (handle st req)) = S (next_sid st)
      /\ is_Some (sessions (fst (handle st req)) !! next_sid st)
      /\ (sessions_wf st -> sessions st !! next_sid st = None)).
Proof.
  intros Hroute. unfold handle, login, await. rewrite Hroute.
  destruct (Player_findOne_username _ _) as [[player|]|]; [|discriminate..].
  destruct (bcrypt_compare _ _) as [[|]|]; [|discriminate..].
  intros _. unfold session_save. split.
  - intros sid Hcookie [user Huser]. rewrite Hcookie, Huser. cbn [fst snd set_cookie next_sid sessions].
    split; [reflexivity|]. split; [reflexivity|].
    rewrite lookup_insert_eq. eexists; reflexivity.
  - intros Hnone.
    assert (Hfresh : sessions_wf st -> sessions st !! next_sid st = None).
    { intros Hwf. destruct (sessions st !! next_sid st) eqn:Hnext; [|reflexivity].
      assert (Hlt : (next_sid st < next_sid st)%nat)
        by (apply Hwf; rewrite Hnext; eexists; reflexivity).
      lia. }
    destruct (cookie req) as [sid|]; cbn [req_session_user] in Hnone;
      [rewrite Hnone|]; cbn [fst snd set_cookie next_sid sessions];
      (split; [reflexivity|]); (split; [reflexivity|]);
      (split; [rewrite lookup_insert_eq; eexists; reflexivity | exact Hfresh]).
Qed.

End LoginSession.

(** [alice] logs in again under her session 0: no cookie is announced and
    the next identifier is still 1. *)
Lemma login_session_identifier_witness :
  let req := Demo.log_in (Some 0%nat) "alice" "secret" in
  set_cookie (snd (@handle Demo.libraries Demo.logged_in req)) = None
  /\ next_sid (fst (@handle Demo.libraries Demo.logged_in req)) = 1%nat.
Proof.
  intros req.
  destruct (@login_session_identifier Demo.libraries Demo.logged_in req eq_refl)
    as [Hkept _]; [vm_compute; reflexivity|].
  destruct (Hkept 0%nat eq_refl) as (Hcookie & Hnext & _).
  - vm_compute. eexists; reflexivity.
  - split; [exact Hcookie | exact Hnext].
Defined.
